(** * ChatbotService: the RAG chat orchestrator of [services/chatbot_service.py]

    A shallow embedding of [ChatbotService] and of the properties its
    specification states about it.

    The service composes four collaborators whose code lives in other modules
    of the repository ([utils.chat_utils], [utils.chroma_utils],
    [utils.llm_context_utils], [llm.perplexity_llm]).  They are taken here as
    records of methods over an abstract world [W] (the database, the vector
    store, the remote LLM): a method maps a world to an outcome (a value or a
    raised exception) and a new world.  Every call the service makes to a
    collaborator is logged in a trace, so that "the prompt was appended once"
    is a statement about the calls the orchestrator issued.

    Exceptions are the subclasses of Python's [Exception]: these are what
    [except Exception] and the bare [except:] of the source both catch.
    Logging statements have no effect on the model, except where the logged
    expression itself can raise.  The coroutines of the source await only
    each other and never suspend; they are run as straight-line code.
    Collaborator results have the types the source uses them at: a session
    is [None] or a dict, formatted context and history are lists, the LLM
    returns a string. *)

From stdpp Require Import base strings gmap list.

Set Warnings "-register-all".
Local Open Scope string_scope.

(** ** Python values *)

Module Py.

(** The values that flow through the service: scalars, lists and
    string-keyed dicts. *)
Inductive value : Type :=
| VNone
| VBool (b : bool)
| VInt (n : Z)
| VStr (s : string)
| VList (l : list value)
| VDict (d : gmap string value).

Abbreviation dict := (gmap string value).

(** Exceptions deriving from [Exception]. *)
Inductive exn : Type :=
| ValueError (msg : string)
| KeyError (key : string)
| IndexError (msg : string)
| TypeError (msg : string)
| AttributeError (msg : string)
| OtherException (name msg : string).

(** Outcome of evaluating an expression or a call. *)
Inductive result (A : Type) : Type :=
| Return (a : A)
| Raise (e : exn).
Arguments Return {A} a.
Arguments Raise {A} e.

(** [bool(v)] *)
Definition truthy (v : value) : bool :=
  match v with
  | VNone => false
  | VBool b => b
  | VInt n => negb (Z.eqb n 0)
  | VStr s => negb (String.eqb s "")
  | VList l => match l with [] => false | _ :: _ => true end
  | VDict d => negb (bool_decide (d = ∅))
  end.

(** [len(v)] *)
Definition len (v : value) : result nat :=
  match v with
  | VStr s => Return (String.length s)
  | VList l => Return (length l)
  | VDict d => Return (size d)
  | _ => Raise (TypeError "object has no len()")
  end.

(** [v[0]] *)
Definition getitem0 (v : value) : result value :=
  match v with
  | VList (x :: _) => Return x
  | VList [] => Raise (IndexError "list index out of range")
  | VStr (String c _) => Return (VStr (String c EmptyString))
  | VStr EmptyString => Raise (IndexError "string index out of range")
  | VDict _ => Raise (KeyError "0")
  | _ => Raise (TypeError "object is not subscriptable")
  end.

(** [v[-1]] *)
Definition getitem_last (v : value) : result value :=
  match v with
  | VList l =>
      match last l with
      | Some x => Return x
      | None => Raise (IndexError "list index out of range")
      end
  | VStr s =>
      match last (String.list_ascii_of_string s) with
      | Some c => Return (VStr (String c EmptyString))
      | None => Raise (IndexError "string index out of range")
      end
  | VDict _ => Raise (KeyError "-1")
  | _ => Raise (TypeError "object is not subscriptable")
  end.

(** [d.get(k)] *)
Definition get (d : dict) (k : string) : value := default VNone (d !! k).

(** [d.get(k, dflt)] *)
Definition get_or (d : dict) (k : string) (dflt : value) : value :=
  default dflt (d !! k).

(** [d[k]] *)
Definition getitem (d : dict) (k : string) : result value :=
  match d !! k with
  | Some v => Return v
  | None => Raise (KeyError k)
  end.

(** [v != s] for a string [s] *)
Definition ne_str (v : value) (s : string) : bool :=
  match v with
  | VStr t => negb (String.eqb t s)
  | _ => true
  end.

End Py.
Import Py.

(** ** Collaborator calls and the service monad *)

(** The calls the service issues, with their arguments. *)
Inductive event : Type :=
| Get_chat (chat_id : string)
| Add_prompt_to_chat (chat_id prompt : string)
| Add_assistant_response_to_chat (chat_id response : string) (citations : list value)
| Query_chat_docs (chat_id query : string)
| Get_collection
| Format_rag_context (rag_results : dict)
| Format_chat_history (conversation_history : value) (max_history : Z)
| Truncate_context_if_needed (context history : list value) (max_tokens : Z)
| Prepare_llm_payload (context history : list value) (prompt : string)
| Extract_citations_from_context (context : list value) (response : string)
| Generate (prompt : value)
| Generate_with_context (prompt context history : value).

Definition is_user_append (e : event) : bool :=
  match e with Add_prompt_to_chat _ _ => true | _ => false end.

Definition is_assistant_append (e : event) : bool :=
  match e with Add_assistant_response_to_chat _ _ _ => true | _ => false end.

Definition is_store_write (e : event) : bool :=
  is_user_append e || is_assistant_append e.

Definition is_llm_call (e : event) : bool :=
  match e with Generate _ | Generate_with_context _ _ _ => true | _ => false end.

Definition is_retrieval (e : event) : bool :=
  match e with Query_chat_docs _ _ => true | _ => false end.

Section Service.

Context {W : Type}.

(** A collaborator method: outcome and new world. *)
Definition method (A : Type) : Type := W → result A * W.

(** What running a computation gives: its outcome, the world it leaves and
    the collaborator calls it issued, in order. *)
Record run (A : Type) : Type := Run {
  outcome : result A;
  world : W;
  calls : list event
}.
Arguments Run {A} outcome world calls.
Arguments outcome {A} r.
Arguments world {A} r.
Arguments calls {A} r.

(** Computations of the service: exceptions over a world, with a call log. *)
Definition M (A : Type) : Type := W → run A.

#[local] Instance M_ret : MRet M := λ A a w, Run (Return a) w [].
#[local] Instance M_bind : MBind M := λ A B f m w,
  match m w with
  | Run (Return a) w1 t1 =>
      match f a w1 with Run r w2 t2 => Run r w2 (t1 ++ t2) end
  | Run (Raise e) w1 t1 => Run (Raise e) w1 t1
  end.

Definition raise {A} (e : exn) : M A := λ w, Run (Raise e) w [].

(** Evaluate a pure Python expression that may raise. *)
Definition eval {A} (r : result A) : M A := λ w, Run r w [].

(** Call a collaborator method and log the call. *)
Definition call {A} (ev : event) (f : method A) : M A := λ w,
  match f w with (r, w') => Run r w' [ev] end.

(** [try: m  except Exception as e: h e] *)
Definition try_except {A} (m : M A) (h : exn → M A) : M A := λ w,
  match m w with
  | Run (Return a) w1 t1 => Run (Return a) w1 t1
  | Run (Raise e) w1 t1 =>
      match h e w1 with Run r w2 t2 => Run r w2 (t1 ++ t2) end
  end.

(** ** Collaborators *)

Record ChatUtils : Type := {
  get_chat : string → method (option dict);
  add_prompt_to_chat : string → string → method unit;
  add_assistant_response_to_chat : string → string → list value → method unit
}.

Record ChromaUtils : Type := {
  query_chat_docs : string → string → method dict;
  get_collection : method (option value)
}.

Record LLMContextFormatter : Type := {
  format_rag_context : dict → method (list value);
  format_chat_history : value → Z → method (list value);
  truncate_context_if_needed :
    list value → list value → Z → method (list value * list value);
  prepare_llm_payload : list value → list value → string → method dict;
  extract_citations_from_context : list value → string → method (list value)
}.

Record PerplexityLLM : Type := {
  generate : value → method string;
  generate_with_context : value → value → value → method string
}.

(** [datetime.utcnow().isoformat()] reads the clock of the world. *)
Variable utcnow_isoformat : W → string.

Definition now : M string := λ w, Run (Return (utcnow_isoformat w)) w [].

(** ** The service *)

Record ChatbotService : Type := {
  chroma_utils : ChromaUtils;
  chat_utils : ChatUtils;
  context_formatter : LLMContextFormatter;
  llm : option PerplexityLLM;
  max_rag_results : Z;
  max_chat_history : Z;
  max_tokens : Z
}.

(** [ChatbotService.__init__], for collaborators whose constructors
    returned.  ([user_utils] is assigned but never read in this module.) *)
Definition __init__ (chroma : ChromaUtils) (chat : ChatUtils)
    (formatter : LLMContextFormatter) (perplexity : PerplexityLLM)
    : ChatbotService :=
  {| chroma_utils := chroma;
     chat_utils := chat;
     context_formatter := formatter;
     llm := Some perplexity;
     max_rag_results := 5%Z;
     max_chat_history := 10%Z;
     max_tokens := 8000%Z |}.

Record ChatResponse : Type := {
  chatId : string;
  response : string;
  citations : list value;
  contextUsed : nat;
  historyUsed : nat;
  timestamp : string
}.

Definition error_response : string :=
  "I apologize, but I encountered an error while processing your request. Please try again.".

Definition fallback_response : string :=
  "I apologize, but I'm having trouble accessing my language model right now. Please try again later.".

(** [self.llm.<method>]: attribute access on [self.llm] *)
Definition the_llm (self : ChatbotService) : M PerplexityLLM :=
  match llm self with
  | Some l => mret l
  | None => raise (AttributeError "'NoneType' object has no attribute")
  end.

Definition _retrieve_relevant_context (self : ChatbotService)
    (chat_id query : string) : M dict :=
  try_except
    (results ← call (Query_chat_docs chat_id query)
                    (query_chat_docs (chroma_utils self) chat_id query);
     (* the logged f-string: len(results.get('documents', [[]])[0]) *)
     docs0 ← eval (getitem0 (get_or results "documents" (VList [VList []])));
     _ ← eval (len docs0);
     mret results)
    (λ _, mret ∅).

Definition _generate_llm_response (self : ChatbotService) (payload : dict)
    : M string :=
  try_except
    (if truthy (get payload "context") || truthy (get payload "history") then
       l ← the_llm self;
       prompt ← eval (getitem payload "prompt");
       let context := get_or payload "context" (VList []) in
       let history := get_or payload "history" (VList []) in
       call (Generate_with_context prompt context history)
            (generate_with_context l prompt context history)
     else
       l ← the_llm self;
       prompt ← eval (getitem payload "prompt");
       call (Generate prompt) (generate l prompt))
    (λ _, mret fallback_response).

(** The [try] block of [process_chat_prompt]. *)
Definition process_chat_prompt_body (self : ChatbotService)
    (chat_id user_prompt : string) (user_id : option string)
    : M ChatResponse :=
  (* Step 1: validate chat and user *)
  chat ← call (Get_chat chat_id) (get_chat (chat_utils self) chat_id);
  chat ← match chat with
         | Some d =>
             if truthy (VDict d) then mret d
             else raise (ValueError ("Chat not found: " +:+ chat_id))
         | None => raise (ValueError ("Chat not found: " +:+ chat_id))
         end;
  _ ← match user_id with
      | Some u =>
          if truthy (VStr u) && ne_str (get chat "userId") u
          then raise (ValueError "User ID does not match chat owner")
          else mret ()
      | None => mret ()
      end;
  (* Step 2: add user prompt to chat *)
  _ ← call (Add_prompt_to_chat chat_id user_prompt)
           (add_prompt_to_chat (chat_utils self) chat_id user_prompt);
  (* Step 3: RAG retrieval *)
  rag_results ← _retrieve_relevant_context self chat_id user_prompt;
  formatted_rag_context ←
    call (Format_rag_context rag_results)
         (format_rag_context (context_formatter self) rag_results);
  (* Step 4: chat history, from the re-loaded session *)
  chat_with_history ← call (Get_chat chat_id) (get_chat (chat_utils self) chat_id);
  conversation_history ←
    match chat_with_history with
    | Some d => mret (get_or d "conversation_history" (VList []))
    | None => raise (AttributeError "'NoneType' object has no attribute 'get'")
    end;
  formatted_chat_history ←
    call (Format_chat_history conversation_history (max_chat_history self))
         (format_chat_history (context_formatter self) conversation_history
            (max_chat_history self));
  (* Step 5: token budget *)
  '(optimized_context, optimized_history) ←
    call (Truncate_context_if_needed formatted_rag_context formatted_chat_history
            (max_tokens self))
         (truncate_context_if_needed (context_formatter self)
            formatted_rag_context formatted_chat_history (max_tokens self));
  (* Step 6: LLM response *)
  llm_payload ←
    call (Prepare_llm_payload optimized_context optimized_history user_prompt)
         (prepare_llm_payload (context_formatter self)
            optimized_context optimized_history user_prompt);
  assistant_response ← _generate_llm_response self llm_payload;
  (* Step 7: citations *)
  cits ←
    call (Extract_citations_from_context optimized_context assistant_response)
         (extract_citations_from_context (context_formatter self)
            optimized_context assistant_response);
  (* Step 8: store assistant response *)
  _ ← call (Add_assistant_response_to_chat chat_id assistant_response cits)
           (add_assistant_response_to_chat (chat_utils self)
              chat_id assistant_response cits);
  (* Step 9: response *)
  ts ← now;
  mret {| chatId := chat_id;
          response := assistant_response;
          citations := cits;
          contextUsed := length optimized_context;
          historyUsed := length optimized_history;
          timestamp := ts |}.

(** The [except Exception as e] block: a best-effort apology, then [raise]. *)
Definition process_chat_prompt_handler (self : ChatbotService)
    (chat_id : string) (e : exn) : M ChatResponse :=
  _ ← try_except
        (call (Add_assistant_response_to_chat chat_id error_response [])
              (add_assistant_response_to_chat (chat_utils self)
                 chat_id error_response []))
        (λ _, mret ());
  raise e.

Definition process_chat_prompt (self : ChatbotService)
    (chat_id user_prompt : string) (user_id : option string)
    : M ChatResponse :=
  try_except (process_chat_prompt_body self chat_id user_prompt user_id)
             (process_chat_prompt_handler self chat_id).

Definition get_chat_summary (self : ChatbotService) (chat_id : string)
    : M dict :=
  try_except
    (chat ← call (Get_chat chat_id) (get_chat (chat_utils self) chat_id);
     match chat with
     | Some chat =>
         if negb (truthy (VDict chat)) then mret ∅
         else
           let conversation_history :=
             get_or chat "conversationHistory" (VList []) in
           messageCount ← eval (len conversation_history);
           lastMessage ← (if truthy conversation_history
                          then eval (getitem_last conversation_history)
                          else mret VNone);
           mret ({[ "chatId" := VStr chat_id;
                    "userId" := get chat "userId";
                    "title" := get_or chat "title" (VStr "Untitled Chat");
                    "messageCount" := VInt (Z.of_nat messageCount);
                    "createdAt" := get chat "createdAt";
                    "updatedAt" := get chat "updatedAt";
                    "lastMessage" := lastMessage ]} : dict)
     | None => mret ∅
     end)
    (λ _, mret ∅).

(** The health report, a dict with five fixed keys. *)
Record Health : Type := {
  chatbot_service : bool;
  chroma_db : bool;
  mongodb : bool;
  perplexity_llm : bool;
  health_timestamp : string
}.

Definition set_chroma_db (b : bool) (h : Health) : Health :=
  {| chatbot_service := chatbot_service h; chroma_db := b;
     mongodb := mongodb h; perplexity_llm := perplexity_llm h;
     health_timestamp := health_timestamp h |}.

Definition set_mongodb (b : bool) (h : Health) : Health :=
  {| chatbot_service := chatbot_service h; chroma_db := chroma_db h;
     mongodb := b; perplexity_llm := perplexity_llm h;
     health_timestamp := health_timestamp h |}.

Definition set_perplexity_llm (b : bool) (h : Health) : Health :=
  {| chatbot_service := chatbot_service h; chroma_db := chroma_db h;
     mongodb := mongodb h; perplexity_llm := b;
     health_timestamp := health_timestamp h |}.

(** [x is not None] *)
Definition is_not_None {A} (x : option A) : bool :=
  match x with Some _ => true | None => false end.

Definition health_check (self : ChatbotService) : M Health :=
  ts ← now;
  let health :=
    {| chatbot_service := true; chroma_db := false; mongodb := false;
       perplexity_llm := false; health_timestamp := ts |} in
  health ← try_except
             (collection ← call Get_collection (get_collection (chroma_utils self));
              mret (set_chroma_db (is_not_None collection) health))
             (λ _, mret health);
  health ← try_except
             (_ ← call (Get_chat "health_check_test")
                       (get_chat (chat_utils self) "health_check_test");
              mret (set_mongodb true health))
             (λ _, mret health);
  health ← try_except
             (mret (set_perplexity_llm (is_not_None (llm self)) health))
             (λ _, mret health);
  mret health.

End Service.

Arguments Run {W A} outcome world calls.
Arguments outcome {W A} r.
Arguments world {W A} r.
Arguments calls {W A} r.
Arguments ChatUtils W : clear implicits.
Arguments ChromaUtils W : clear implicits.
Arguments LLMContextFormatter W : clear implicits.
Arguments PerplexityLLM W : clear implicits.
Arguments ChatbotService W : clear implicits.
Arguments method W A : clear implicits.

(** ** Conditions on the collaborators *)

Section Conditions.

Context {W : Type}.

(** [not (not chat)]: [get_chat] found a session. *)
Definition chat_found (chat : option dict) : bool :=
  match chat with
  | Some d => truthy (VDict d)
  | None => false
  end.

(** [user_id and chat.get('userId') != user_id] *)
Definition owner_mismatch (chat : dict) (user_id : option string) : bool :=
  match user_id with
  | Some u => truthy (VStr u) && ne_str (get chat "userId") u
  | None => false
  end.

(** [payload.get(k)] is truthy: the payload has a non-empty [k]. *)
Definition has_nonempty (payload : dict) (k : string) : bool :=
  truthy (get payload k).

(** On worlds that satisfy [inv] the method returns, and leaves such a
    world. *)
Definition returns_on (inv : W → Prop) {A} (f : method W A) : Prop :=
  ∀ w, inv w → ∃ a w', f w = (Return a, w') ∧ inv w'.

(** Whatever its outcome, the method leaves [inv] standing. *)
Definition keeps (inv : W → Prop) {A} (f : method W A) : Prop :=
  ∀ w r w', inv w → f w = (r, w') → inv w'.

Definition always_raises {A} (f : method W A) : Prop :=
  ∀ w, ∃ e w', f w = (Raise e, w').

(** The LLM provider fails on every generation call. *)
Definition llm_down (self : ChatbotService W) : Prop :=
  ∀ l, llm self = Some l →
    (∀ p, always_raises (generate l p)) ∧
    (∀ p c h, always_raises (generate_with_context l p c h)).

(** The vector store fails on every query. *)
Definition retrieval_down (self : ChatbotService W) : Prop :=
  ∀ chat_id q, always_raises (query_chat_docs (chroma_utils self) chat_id q).

(** The chat store answers for session [chat_id]: appends go through and a
    re-load finds the session. *)
Definition store_ok (inv : W → Prop) (c : ChatUtils W) (chat_id : string)
    : Prop :=
  (∀ p, returns_on inv (add_prompt_to_chat c chat_id p)) ∧
  (∀ r cs, returns_on inv (add_assistant_response_to_chat c chat_id r cs)) ∧
  (∀ w, inv w → ∃ d w', get_chat c chat_id w = (Return (Some d), w') ∧ inv w').

(** No formatter method raises. *)
Definition formatter_ok (inv : W → Prop) (f : LLMContextFormatter W) : Prop :=
  (∀ r, returns_on inv (format_rag_context f r)) ∧
  (∀ h n, returns_on inv (format_chat_history f h n)) ∧
  (∀ c h b, returns_on inv (truncate_context_if_needed f c h b)) ∧
  (∀ c h p, returns_on inv (prepare_llm_payload f c h p)) ∧
  (∀ c r, returns_on inv (extract_citations_from_context f c r)).

(** The vector store and the LLM may fail, but do not disturb [inv]. *)
Definition upstream_keeps (inv : W → Prop) (self : ChatbotService W) : Prop :=
  (∀ chat_id q, keeps inv (query_chat_docs (chroma_utils self) chat_id q)) ∧
  (∀ l, llm self = Some l →
     (∀ p, keeps inv (generate l p)) ∧
     (∀ p c h, keeps inv (generate_with_context l p c h))).

(** The collaborators the pipeline cannot do without (the store and the
    formatter) work on the worlds of [inv]; of the vector store and the LLM
    nothing is asked but to keep [inv]. *)
Definition healthy (inv : W → Prop) (self : ChatbotService W)
    (chat_id : string) : Prop :=
  store_ok inv (chat_utils self) chat_id ∧
  formatter_ok inv (context_formatter self) ∧
  upstream_keeps inv self.

(** Modelled from the spec: the contract of ContextFormatter.formatContext
    and ContextFormatter.truncate ([utils.llm_context_utils], not in the
    sources) on an empty retrieval: "retrieval failures are swallowed and
    treated as empty context", and truncation only removes blocks. *)
Definition formatter_contract (f : LLMContextFormatter W) : Prop :=
  (∀ w l w', format_rag_context f ∅ w = (Return l, w') → l = []) ∧
  (∀ c h b w c' h' w',
     truncate_context_if_needed f c h b w = (Return (c', h'), w') →
     (length c' ≤ length c)%nat ∧ (length h' ≤ length h)%nat).

(** ** The run of a request that passed validation

    Steps 2 to 9 of [process_chat_prompt] as a relation: from world [w1],
    every step returned; the request ends in world [wf] with response [r]
    after the calls [evs]. *)
Variable utcnow_isoformat : W → string.

Inductive pipeline (self : ChatbotService W) (chat_id user_prompt : string)
    (w1 : W) : ChatResponse → W → list event → Prop :=
| Pipeline w2 w3 w4 w5 w6 w7 w8 w9 w10 wf
    rag_results formatted_rag_context chat_with_history formatted_chat_history
    optimized_context optimized_history llm_payload llm_calls
    assistant_response cits :
    add_prompt_to_chat (chat_utils self) chat_id user_prompt w1
      = (Return (), w2) →
    _retrieve_relevant_context self chat_id user_prompt w2
      = Run (Return rag_results) w3 [Query_chat_docs chat_id user_prompt] →
    format_rag_context (context_formatter self) rag_results w3
      = (Return formatted_rag_context, w4) →
    get_chat (chat_utils self) chat_id w4 = (Return (Some chat_with_history), w5) →
    format_chat_history (context_formatter self)
      (get_or chat_with_history "conversation_history" (VList []))
      (max_chat_history self) w5
      = (Return formatted_chat_history, w6) →
    truncate_context_if_needed (context_formatter self)
      formatted_rag_context formatted_chat_history (max_tokens self) w6
      = (Return (optimized_context, optimized_history), w7) →
    prepare_llm_payload (context_formatter self)
      optimized_context optimized_history user_prompt w7
      = (Return llm_payload, w8) →
    _generate_llm_response self llm_payload w8
      = Run (Return assistant_response) w9 llm_calls →
    extract_citations_from_context (context_formatter self)
      optimized_context assistant_response w9
      = (Return cits, w10) →
    add_assistant_response_to_chat (chat_utils self)
      chat_id assistant_response cits w10
      = (Return (), wf) →
    pipeline self chat_id user_prompt w1
      {| chatId := chat_id;
         response := assistant_response;
         citations := cits;
         contextUsed := length optimized_context;
         historyUsed := length optimized_history;
         timestamp := utcnow_isoformat wf |}
      wf
      ([Add_prompt_to_chat chat_id user_prompt;
        Query_chat_docs chat_id user_prompt;
        Format_rag_context rag_results;
        Get_chat chat_id;
        Format_chat_history
          (get_or chat_with_history "conversation_history" (VList []))
          (max_chat_history self);
        Truncate_context_if_needed formatted_rag_context
          formatted_chat_history (max_tokens self);
        Prepare_llm_payload optimized_context optimized_history user_prompt]
       ++ llm_calls ++
       [Extract_citations_from_context optimized_context assistant_response;
        Add_assistant_response_to_chat chat_id assistant_response cits]).

(** The service with another retrieval limit. *)
Definition with_max_rag_results (k : Z) (self : ChatbotService W)
    : ChatbotService W :=
  {| chroma_utils := chroma_utils self;
     chat_utils := chat_utils self;
     context_formatter := context_formatter self;
     llm := llm self;
     max_rag_results := k;
     max_chat_history := max_chat_history self;
     max_tokens := max_tokens self |}.

End Conditions.

(** ** The token budget *)

Section TokenBudget.

(** The token-count estimate a formatted block is tagged with. *)
Variable estimate_tokens : value → nat.

Definition total_tokens (blocks : list value) : nat :=
  sum_list_with estimate_tokens blocks.

(** The longest prefix of [blocks] whose estimate fits in [budget]. *)
Fixpoint keep_within (budget : nat) (blocks : list value) : list value :=
  match blocks with
  | [] => []
  | b :: rest =>
      if (estimate_tokens b <=? budget)%nat
      then b :: keep_within (budget - estimate_tokens b) rest
      else []
  end.

(** Modelled from the spec: ContextFormatter.truncate
    ([LLMContextFormatter.truncate_context_if_needed], in
    [utils.llm_context_utils], not in the sources): "if combined context +
    history exceeds budget, truncate context first, then history, preserving
    most-recent/most-relevant items".  Context blocks come most relevant
    first, history blocks oldest first. *)
Definition truncate_to_budget (context history : list value) (budget : Z)
    : list value * list value :=
  let b := Z.to_nat budget in
  if (total_tokens context + total_tokens history <=? b)%nat then
    (context, history)
  else if (total_tokens history <=? b)%nat then
    (keep_within (b - total_tokens history) context, history)
  else
    ([], reverse (keep_within b (reverse history))).

(** The formatter truncates as the spec describes. *)
Definition truncates_to_budget {W} (f : LLMContextFormatter W) : Prop :=
  ∀ c h b w,
    truncate_context_if_needed f c h b w = (Return (truncate_to_budget c h b), w).

End TokenBudget.

(** ** An in-memory deployment

    Collaborators over a small world, to run the service on concrete
    requests.  Each collaborator is either reachable or not. *)

Module Demo.

Record world : Type := World {
  sessions : gmap string dict;
  documents : list string;
  clock : string
}.

Definition unavailable (what : string) : exn :=
  OtherException "ConnectionError" what.

Definition message (role content : string) (cits : list value) : value :=
  VDict {[ "role" := VStr role; "content" := VStr content;
           "citations" := VList cits ]}.

Definition append_message (msg : value) (d : dict) : dict :=
  match get_or d "conversation_history" (VList []) with
  | VList msgs => <["conversation_history" := VList (msgs ++ [msg])]> d
  | _ => d
  end.

Definition with_sessions (s : gmap string dict) (w : world) : world :=
  World s (documents w) (clock w).

Definition guarded {A} (up : bool) (what : string) (f : world → A * world)
    : method world A := λ w,
  if up then (let '(a, w') := f w in (Return a, w'))
  else (Raise (unavailable what), w).

Definition chat (up : bool) : ChatUtils world := {|
  get_chat cid := guarded up "mongodb" (λ w, (sessions w !! cid, w));
  add_prompt_to_chat cid p := guarded up "mongodb" (λ w,
    ((), with_sessions (alter (append_message (message "user" p [])) cid
                          (sessions w)) w));
  add_assistant_response_to_chat cid r cs := guarded up "mongodb" (λ w,
    ((), with_sessions (alter (append_message (message "assistant" r cs)) cid
                          (sessions w)) w))
|}.

(** A store that can be read but refuses every write. *)
Definition read_only_chat : ChatUtils world := {|
  get_chat cid := get_chat (chat true) cid;
  add_prompt_to_chat cid p w := (Raise (unavailable "mongodb write"), w);
  add_assistant_response_to_chat cid r cs w :=
    (Raise (unavailable "mongodb write"), w)
|}.

Definition chroma (up : bool) : ChromaUtils world := {|
  query_chat_docs cid q := guarded up "chroma" (λ w,
    ({[ "documents" := VList [VList (VStr <$> documents w)] ]}, w));
  get_collection := guarded up "chroma" (λ w, (Some (VStr "docs"), w))
|}.

(** A block is a text; its estimate is its length. *)
Definition estimate_tokens (block : value) : nat :=
  match block with
  | VStr s => String.length s
  | _ => 0
  end.

Definition message_text (msg : value) : value :=
  match msg with
  | VDict d => get_or d "content" (VStr "")
  | _ => VStr ""
  end.

Definition formatter : LLMContextFormatter world := {|
  format_rag_context r w :=
    (Return match get_or r "documents" (VList [VList []]) with
            | VList (VList docs :: _) => docs
            | _ => []
            end, w);
  format_chat_history h n w :=
    (Return match h with
            | VList msgs =>
                message_text <$> drop (length msgs - Z.to_nat n) msgs
            | _ => []
            end, w);
  truncate_context_if_needed c h b w :=
    (Return (truncate_to_budget estimate_tokens c h b), w);
  prepare_llm_payload c h p w :=
    (Return {[ "context" := VList c; "history" := VList h;
               "prompt" := VStr p ]}, w);
  extract_citations_from_context c r w := (Return c, w)
|}.

Definition perplexity (up : bool) : PerplexityLLM world := {|
  generate p := guarded up "perplexity" (λ w, ("plain answer", w));
  generate_with_context p c h :=
    guarded up "perplexity" (λ w, ("grounded answer", w))
|}.

(** The service over a store, a vector store and an LLM that are up or
    down. *)
Definition service (mongo_up chroma_up llm_up : bool) : ChatbotService world :=
  __init__ (chroma chroma_up) (chat mongo_up) formatter (perplexity llm_up).

Definition read_only_service : ChatbotService world :=
  __init__ (chroma true) read_only_chat formatter (perplexity true).

(** Session "c1", owned by "u1", with six indexed documents. *)
Definition session1 : dict :=
  {[ "userId" := VStr "u1"; "conversation_history" := VList [] ]}.

Definition w0 : world := {|
  sessions := {[ "c1" := session1 ]};
  documents := ["d1"; "d2"; "d3"; "d4"; "d5"; "d6"];
  clock := "2025-01-01T00:00:00"
|}.

(** Two payloads: one with a context block, one with the prompt only. *)
Definition payload_with_context : dict :=
  {[ "prompt" := VStr "hi"; "context" := VList [VStr "d1"] ]}.

Definition payload_plain : dict := {[ "prompt" := VStr "hi" ]}.

(** Session "c1" exists. *)
Definition has_c1 (w : world) : Prop := is_Some (sessions w !! "c1").

End Demo.

(** ** Construction and the process-wide instance *)

Section Construction.

Context {W : Type}.

(** The collaborator constructors, in the order [__init__] calls them. *)
Inductive constructor : Type :=
| New_ChromaUtils
| New_ChatUtils
| New_UserUtils
| New_LLMContextFormatter
| New_PerplexityLLM.

Definition all_constructors : list constructor :=
  [New_ChromaUtils; New_ChatUtils; New_UserUtils; New_LLMContextFormatter;
   New_PerplexityLLM].

Record Constructors : Type := {
  ChromaUtils_new : method W (ChromaUtils W);
  ChatUtils_new : method W (ChatUtils W);
  UserUtils_new : method W unit;
  LLMContextFormatter_new : method W (LLMContextFormatter W);
  PerplexityLLM_new : method W (PerplexityLLM W)
}.

(** What a construction gives: its outcome, the world it leaves and the
    constructors it ran, in order. *)
Record construction (A : Type) : Type := Construction {
  built : result A;
  after : W;
  constructed : list constructor
}.
Arguments Construction {A} built after constructed.
Arguments built {A} c.
Arguments after {A} c.
Arguments constructed {A} c.

(** [x = C()] followed by the rest of the block. *)
Definition construct {A B} (c : constructor) (new : method W A)
    (rest : A → W → construction B) : W → construction B := λ w,
  match new w with
  | (Return a, w') =>
      match rest a w' with
      | Construction r w'' t => Construction r w'' (c :: t)
      end
  | (Raise e, w') => Construction (Raise e) w' [c]
  end.

(** [ChatbotService()]: [__init__] with the constructors it calls.  Its
    [except Exception] block logs and re-raises, which leaves the outcome as
    it is. *)
Definition ChatbotService_new (cs : Constructors)
    : W → construction (ChatbotService W) :=
  construct New_ChromaUtils (ChromaUtils_new cs) (λ chroma,
  construct New_ChatUtils (ChatUtils_new cs) (λ chat,
  construct New_UserUtils (UserUtils_new cs) (λ _,
  construct New_LLMContextFormatter (LLMContextFormatter_new cs) (λ formatter,
  construct New_PerplexityLLM (PerplexityLLM_new cs) (λ perplexity w,
    Construction (Return (__init__ chroma chat formatter perplexity)) w []))))).

(** [get_chatbot_service], over the module global
    [_chatbot_service_instance]: the call gives a construction and the new
    value of the global. *)
Definition get_chatbot_service (cs : Constructors)
    (_chatbot_service_instance : option (ChatbotService W)) (w : W)
    : construction (ChatbotService W) * option (ChatbotService W) :=
  match _chatbot_service_instance with
  | None =>
      match ChatbotService_new cs w with
      | Construction (Return self) w' t =>
          (Construction (Return self) w' t, Some self)
      | Construction (Raise e) w' t =>
          (Construction (Raise e) w' t, None)
      end
  | Some self => (Construction (Return self) w [], Some self)
  end.

End Construction.

Arguments Constructors W : clear implicits.
Arguments Construction {W A} built after constructed.
Arguments built {W A} c.
Arguments after {W A} c.
Arguments constructed {W A} c.

(** ** More deployments *)

Module Scenarios.

Import Demo.

(** A store in which the session is gone once the prompt was appended (it
    was deleted meanwhile). *)
Definition forgetful_chat : ChatUtils world := {|
  get_chat cid := get_chat (chat true) cid;
  add_prompt_to_chat cid p w :=
    (Return (), with_sessions (delete cid (sessions w)) w);
  add_assistant_response_to_chat cid r cs :=
    add_assistant_response_to_chat (chat true) cid r cs
|}.

Definition forgetful_service : ChatbotService world :=
  __init__ (chroma true) forgetful_chat formatter (perplexity true).

(** A store that takes prompts but refuses assistant messages. *)
Definition no_assistant_chat : ChatUtils world := {|
  get_chat cid := get_chat (chat true) cid;
  add_prompt_to_chat cid p := add_prompt_to_chat (chat true) cid p;
  add_assistant_response_to_chat cid r cs w :=
    (Raise (unavailable "mongodb write"), w)
|}.

Definition no_assistant_service : ChatbotService world :=
  __init__ (chroma true) no_assistant_chat formatter (perplexity true).

(** A store that keeps the messages under ["conversationHistory"]. *)
Definition append_message_camel (msg : value) (d : dict) : dict :=
  match get_or d "conversationHistory" (VList []) with
  | VList msgs => <["conversationHistory" := VList (msgs ++ [msg])]> d
  | _ => d
  end.

Definition camel_chat : ChatUtils world := {|
  get_chat cid := get_chat (chat true) cid;
  add_prompt_to_chat cid p w :=
    (Return (),
     with_sessions (alter (append_message_camel (message "user" p [])) cid
                      (sessions w)) w);
  add_assistant_response_to_chat cid r cs w :=
    (Return (),
     with_sessions (alter (append_message_camel (message "assistant" r cs)) cid
                      (sessions w)) w)
|}.

Definition camel_service : ChatbotService world :=
  __init__ (chroma true) camel_chat formatter (perplexity true).

Definition camel_session : dict :=
  {[ "userId" := VStr "u1"; "title" := VStr "Leases";
     "conversationHistory" :=
       VList [message "user" "hi" []; message "assistant" "hello" []] ]}.

Definition w_camel : world := {|
  sessions := {[ "c1" := camel_session ]};
  documents := ["d1"];
  clock := "2025-01-01T00:00:00"
|}.

(** A session whose history is null, and one that records no owner. *)
Definition null_history_session : dict :=
  {[ "userId" := VStr "u1"; "conversationHistory" := VNone ]}.

Definition anonymous_session : dict :=
  {[ "conversation_history" := VList [] ]}.

Definition w_odd : world := {|
  sessions := {[ "c1" := null_history_session; "c2" := anonymous_session ]};
  documents := [];
  clock := "2025-01-01T00:00:00"
|}.

(** A vector store that answers with an empty ["documents"] list. *)
Definition blank_chroma : ChromaUtils world := {|
  query_chat_docs cid q w := (Return {[ "documents" := VList [] ]}, w);
  get_collection w := (Return (Some (VStr "docs")), w)
|}.

Definition blank_service : ChatbotService world :=
  __init__ blank_chroma (chat true) formatter (perplexity true).

(** Session "c1" exists and no session has a ["conversation_history"]
    entry. *)
Definition camel_inv (w : world) : Prop :=
  is_Some (sessions w !! "c1") ∧
  ∀ cid d, sessions w !! cid = Some d → d !! "conversation_history" = None.

(** A vector store that rejects the empty query and an LLM that rejects
    the empty prompt; both answer every other request. *)
Definition strict_chroma : ChromaUtils world := {|
  query_chat_docs cid q w :=
    if String.eqb q ""
    then (Raise (OtherException "InvalidArgument" "empty query"), w)
    else query_chat_docs (chroma true) cid q w;
  get_collection := get_collection (chroma true)
|}.

Definition strict_perplexity : PerplexityLLM world := {|
  generate p w :=
    match p with
    | VStr EmptyString => (Raise (OtherException "BadRequest" "empty prompt"), w)
    | _ => (Return "plain answer", w)
    end;
  generate_with_context p c h w :=
    match p with
    | VStr EmptyString => (Raise (OtherException "BadRequest" "empty prompt"), w)
    | _ => (Return "grounded answer", w)
    end
|}.

Definition strict_service : ChatbotService world :=
  __init__ strict_chroma (chat true) formatter strict_perplexity.

Definition payload_without_prompt : dict :=
  {[ "context" := VList [VStr "d1"] ]}.

(** Constructors of the in-memory collaborators; the chat store's one
    fails when the database is not reachable. *)
Definition constructors (mongo_up : bool) : Constructors world := {|
  ChromaUtils_new w := (Return (chroma true), w);
  ChatUtils_new := guarded mongo_up "mongodb" (λ w, (chat true, w));
  UserUtils_new w := (Return (), w);
  LLMContextFormatter_new w := (Return formatter, w);
  PerplexityLLM_new w := (Return (perplexity true), w)
|}.

End Scenarios.

(** * Properties *)

(** Symbolic execution of a service computation: unfold the monad, then
    split on the outcome of each collaborator call in turn. *)
Ltac unfold_monad :=
  unfold the_llm, now, try_except, call, eval, raise, mbind, mret,
    M_bind, M_ret in *.

Ltac split_inner :=
  match goal with
  | |- context [match ?x with _ => _ end] =>
      lazymatch x with
      | context [match _ with _ => _ end] => fail
      | _ => destruct x eqn:?
      end
  end.

Ltac exec := unfold_monad; cbn beta iota; repeat (split_inner; cbn beta iota).

(** After [exec] on [process_chat_prompt]: replace what is known of the runs
    of the two helpers, given the lemmas [Hretrieve] and [Hgenerate] on
    them. *)
Ltac resolve_helpers Hretrieve Hgenerate :=
  repeat match goal with
    | H : _retrieve_relevant_context ?s ?c ?q ?w0 = _ |- _ =>
        let Hrun := fresh "Hrun" in
        destruct (Hretrieve s c q w0) as (? & Hrun & _);
        rewrite Hrun in H; clear Hrun;
        first [discriminate H | injection H as <- <- <-]
    | H : _generate_llm_response ?s ?pl ?w0 = Run _ _ ?t |- _ =>
        let Hc := fresh "Hc" in
        pose proof (Hgenerate s pl w0) as Hc;
        rewrite H in Hc; cbn in Hc; clear H;
        destruct Hc as [-> | (? & -> & ?)]
    end.

Section Properties.

Context {W : Type} (utcnow : W → string).

Implicit Types (self : ChatbotService W) (w : W) (r : ChatResponse).

(** *** Python truthiness *)

Lemma truthy_list (l : list value) : truthy (VList l) = true ↔ l ≠ [].
Proof. destruct l; cbn; split; congruence. Qed.

Lemma truthy_str (s : string) : truthy (VStr s) = true ↔ s ≠ "".
Proof.
  cbn. rewrite negb_true_iff. split.
  - intros H ->. discriminate.
  - intros H. destruct s; [congruence | reflexivity].
Qed.

Lemma truthy_dict (d : dict) : truthy (VDict d) = true ↔ d ≠ ∅.
Proof.
  cbn. rewrite negb_true_iff, bool_decide_eq_false. reflexivity.
Qed.

Lemma ne_str_true (v : value) (u : string) : ne_str v u = true ↔ v ≠ VStr u.
Proof.
  destruct v; cbn; try (split; [discriminate | reflexivity]).
  rewrite negb_true_iff. split.
  - intros H [= ->]. rewrite String.eqb_refl in H. discriminate.
  - intros H. apply String.eqb_neq. congruence.
Qed.

Lemma owner_mismatch_true (d : dict) (uid : option string) :
  owner_mismatch d uid = true ↔
  ∃ u, uid = Some u ∧ u ≠ "" ∧ get d "userId" ≠ VStr u.
Proof.
  destruct uid as [u|]; cbn -[truthy].
  - rewrite andb_true_iff, truthy_str, ne_str_true. split.
    + intros [? ?]. eauto.
    + intros (? & [= <-] & ? & ?). auto.
  - split; [discriminate | intros (? & ? & _); discriminate].
Qed.

Lemma owner_mismatch_false (d : dict) (uid : option string) :
  uid = None ∨ uid = Some "" ∨ (∃ u, uid = Some u ∧ d !! "userId" = Some (VStr u)) →
  owner_mismatch d uid = false.
Proof.
  intros [-> | [-> | (u & -> & Hu)]]; [reflexivity | reflexivity |].
  unfold owner_mismatch, get. rewrite Hu. cbn.
  rewrite String.eqb_refl. apply andb_false_r.
Qed.

(** *** [_retrieve_relevant_context] *)

Lemma retrieve_run self cid q w :
  ∃ rag,
    _retrieve_relevant_context self cid q w
    = Run (Return rag) (query_chat_docs (chroma_utils self) cid q w).2
          [Query_chat_docs cid q] ∧
    (rag = ∅ ∨ (query_chat_docs (chroma_utils self) cid q w).1 = Return rag) ∧
    (∀ e, (query_chat_docs (chroma_utils self) cid q w).1 = Raise e → rag = ∅).
Proof.
  unfold _retrieve_relevant_context. exec; cbn; eexists; (split; [reflexivity|]);
    split; auto; discriminate.
Qed.

(** *** [_generate_llm_response] *)

Lemma generate_llm_response_returns self payload w :
  ∃ s, outcome (_generate_llm_response self payload w) = Return s.
Proof. unfold _generate_llm_response. exec; cbn; eauto. Qed.

Lemma generate_llm_response_calls self payload w :
  calls (_generate_llm_response self payload w) = [] ∨
  ∃ ev, calls (_generate_llm_response self payload w) = [ev] ∧
        is_llm_call ev = true.
Proof. unfold _generate_llm_response. exec; cbn; eauto. Qed.

Lemma generate_llm_response_fallback self payload w :
  llm_down self →
  outcome (_generate_llm_response self payload w) = Return fallback_response.
Proof.
  intros Hdown. unfold _generate_llm_response. exec; cbn; try reflexivity.
  all: match goal with H : llm _ = Some ?l |- _ =>
         destruct (Hdown l H) as [Hg Hc] end.
  all: match goal with
       | E : generate_with_context _ ?p ?c ?h ?w0 = (Return _, _) |- _ =>
           destruct (Hc p c h w0) as (? & ? & ?); congruence
       | E : generate _ ?p ?w0 = (Return _, _) |- _ =>
           destruct (Hg p w0) as (? & ? & ?); congruence
       end.
Qed.

Lemma generate_llm_response_keeps inv self payload w :
  upstream_keeps inv self → inv w →
  inv (world (_generate_llm_response self payload w)).
Proof.
  intros [_ Hk] Hw. unfold _generate_llm_response. exec; cbn; try assumption.
  all: destruct (Hk _ eq_refl) as [Hg Hc].
  all: first [ eapply Hc; eassumption | eapply Hg; eassumption ].
Qed.

Lemma retrieve_keeps inv self cid q w :
  upstream_keeps inv self → inv w →
  inv (world (_retrieve_relevant_context self cid q w)).
Proof.
  intros [Hk _] Hw. destruct (retrieve_run self cid q w) as (rag & -> & _).
  cbn. destruct (query_chat_docs (chroma_utils self) cid q w) as [r w'] eqn:E.
  eapply Hk; eassumption.
Qed.

(** *** [process_chat_prompt]: the [try] block and its handler *)

Lemma process_chat_prompt_unfold self cid p uid w :
  process_chat_prompt utcnow self cid p uid w =
  match process_chat_prompt_body utcnow self cid p uid w with
  | Run (Return r) w1 t1 => Run (Return r) w1 t1
  | Run (Raise e) w1 t1 =>
      Run (Raise e)
        (add_assistant_response_to_chat (chat_utils self)
           cid error_response [] w1).2
        (t1 ++ [Add_assistant_response_to_chat cid error_response []])
  end.
Proof.
  unfold process_chat_prompt, try_except.
  destruct (process_chat_prompt_body utcnow self cid p uid w) as [[r|e] w1 t1];
    [reflexivity|].
  unfold process_chat_prompt_handler. exec; reflexivity.
Qed.

Lemma chat_missing_body self cid p uid w chat w1 :
  get_chat (chat_utils self) cid w = (Return chat, w1) →
  chat_found chat = false →
  process_chat_prompt_body utcnow self cid p uid w
  = Run (Raise (ValueError ("Chat not found: " +:+ cid))) w1 [Get_chat cid].
Proof.
  intros E Hc. unfold process_chat_prompt_body. unfold_monad. rewrite E.
  destruct chat as [d|]; cbn -[truthy] in *; [rewrite Hc|]; reflexivity.
Qed.

Lemma owner_mismatch_body self cid p uid w d w1 :
  get_chat (chat_utils self) cid w = (Return (Some d), w1) →
  truthy (VDict d) = true →
  owner_mismatch d uid = true →
  process_chat_prompt_body utcnow self cid p uid w
  = Run (Raise (ValueError "User ID does not match chat owner")) w1
        [Get_chat cid].
Proof.
  intros E Hd Hm. unfold process_chat_prompt_body. unfold_monad. rewrite E.
  cbn beta iota. rewrite Hd.
  destruct uid as [u|]; cbn -[truthy ne_str] in *; [|discriminate].
  rewrite Hm. reflexivity.
Qed.

(** A request returns exactly when validation passes and steps 2 to 9 all
    return. *)
Lemma process_returns_inv self cid p uid w r wf evs :
  process_chat_prompt utcnow self cid p uid w = Run (Return r) wf evs →
  ∃ d w1 evs',
    get_chat (chat_utils self) cid w = (Return (Some d), w1) ∧
    truthy (VDict d) = true ∧
    owner_mismatch d uid = false ∧
    pipeline utcnow self cid p w1 r wf evs' ∧
    evs = Get_chat cid :: evs'.
Proof.
  rewrite process_chat_prompt_unfold. unfold process_chat_prompt_body.
  exec; try discriminate.
  all: intros [= <- <- <-].
  all: repeat match goal with
         | H : _retrieve_relevant_context ?s ?c ?q ?w0 = _ |- _ =>
             destruct (retrieve_run s c q w0) as (? & Hrun & _);
             rewrite Hrun in H; injection H as <- <- <-
         | u : () |- _ => destruct u
         end.
  all: eexists _, _, _; (split; [reflexivity|]); (split; [assumption|]).
  all: (split; [first [assumption | reflexivity]|]).
  all: split; [econstructor; eassumption | reflexivity].
Qed.

Lemma pipeline_returns self cid p uid w d w1 r wf evs :
  get_chat (chat_utils self) cid w = (Return (Some d), w1) →
  truthy (VDict d) = true →
  owner_mismatch d uid = false →
  pipeline utcnow self cid p w1 r wf evs →
  process_chat_prompt utcnow self cid p uid w
  = Run (Return r) wf (Get_chat cid :: evs).
Proof.
  intros E Hd Hm Hp. rewrite process_chat_prompt_unfold.
  unfold process_chat_prompt_body. unfold_monad.
  rewrite E. cbn beta iota. rewrite Hd.
  assert (match uid with
          | Some u => truthy (VStr u) && ne_str (get d "userId") u
          | None => false
          end = false) as Hm' by exact Hm.
  inversion Hp; subst.
  destruct uid as [u|]; [rewrite Hm'|];
    repeat match goal with
      | H : ?f = _ |- context [?f] => rewrite H; cbn beta iota
      end; reflexivity.
Qed.

(** With a working store and formatter, steps 2 to 9 all return. *)
Lemma healthy_pipeline inv self cid p w1 :
  healthy inv self cid → inv w1 →
  ∃ r wf evs, pipeline utcnow self cid p w1 r wf evs ∧ inv wf.
Proof.
  intros ((Hadd & Hasst & Hget) & (Hrag & Hhist & Htrunc & Hprep & Hcit) & Hup) I1.
  destruct (Hadd p w1 I1) as ([] & w2 & E2 & I2).
  destruct (retrieve_run self cid p w2) as (rag & E3 & _).
  pose proof (retrieve_keeps inv self cid p w2 Hup I2) as I3.
  rewrite E3 in I3. cbn in I3.
  destruct (Hrag rag _ I3) as (ctx & w4 & E4 & I4).
  destruct (Hget w4 I4) as (d & w5 & E5 & I5).
  destruct (Hhist (get_or d "conversation_history" (VList []))
              (max_chat_history self) w5 I5) as (hist & w6 & E6 & I6).
  destruct (Htrunc ctx hist (max_tokens self) w6 I6) as ([c' h'] & w7 & E7 & I7).
  destruct (Hprep c' h' p w7 I7) as (payload & w8 & E8 & I8).
  destruct (generate_llm_response_returns self payload w8) as (resp & E9).
  pose proof (generate_llm_response_keeps inv self payload w8 Hup I8) as I9.
  destruct (_generate_llm_response self payload w8) as [o w9 t9] eqn:E9'.
  cbn in E9, I9. subst o.
  destruct (Hcit c' resp w9 I9) as (cits & w10 & E10 & I10).
  destruct (Hasst resp cits w10 I10) as ([] & wf & E11 & I11).
  eexists _, wf, _. split; [econstructor; eassumption | assumption].
Qed.

Lemma llm_call_is_no_append (ev : event) :
  is_llm_call ev = true →
  is_user_append ev = false ∧ is_assistant_append ev = false.
Proof. destruct ev; cbn; intros; (discriminate || auto). Qed.

(** The store writes of a request that went through steps 2 to 9. *)
Lemma pipeline_store_writes self cid p w1 r wf evs :
  pipeline utcnow self cid p w1 r wf evs →
  chatId r = cid ∧
  List.filter is_user_append evs = [Add_prompt_to_chat cid p] ∧
  List.filter is_assistant_append evs
  = [Add_assistant_response_to_chat cid (response r) (citations r)] ∧
  List.filter is_store_write evs
  = [Add_prompt_to_chat cid p;
     Add_assistant_response_to_chat cid (response r) (citations r)].
Proof.
  intros Hp. inversion Hp as [? ? ? ? ? ? ? ? ? ? ? ? ? ? ? ? payload llm_calls
    ? ? _ _ _ _ _ _ _ Hgen _ _]; subst.
  pose proof (generate_llm_response_calls self payload w8) as Hc.
  rewrite Hgen in Hc. cbn in Hc. unfold is_store_write.
  destruct Hc as [-> | (ev & -> & Hev)]; cbn.
  - auto.
  - destruct (llm_call_is_no_append ev Hev) as [-> ->]. cbn. auto.
Qed.

(** Whatever happens after validation, the prompt append comes right after
    the session was loaded. *)
Lemma validation_passes_calls self cid p uid w d w1 :
  get_chat (chat_utils self) cid w = (Return (Some d), w1) →
  truthy (VDict d) = true →
  owner_mismatch d uid = false →
  ∃ rest, calls (process_chat_prompt utcnow self cid p uid w)
          = Get_chat cid :: Add_prompt_to_chat cid p :: rest.
Proof.
  intros E Hd Hm. rewrite process_chat_prompt_unfold.
  unfold process_chat_prompt_body. unfold_monad. rewrite E. cbn beta iota.
  rewrite Hd.
  assert (match uid with
          | Some u => truthy (VStr u) && ne_str (get d "userId") u
          | None => false
          end = false) as Hm' by exact Hm.
  destruct uid as [u|]; [rewrite Hm'|]; cbn beta iota.
  all: exec; cbn; eauto.
Qed.

Lemma healthy_returns inv self cid p uid w d w1 :
  healthy inv self cid → inv w →
  get_chat (chat_utils self) cid w = (Return (Some d), w1) →
  truthy (VDict d) = true →
  owner_mismatch d uid = false →
  ∃ r wf evs,
    process_chat_prompt utcnow self cid p uid w
    = Run (Return r) wf (Get_chat cid :: evs) ∧
    pipeline utcnow self cid p w1 r wf evs.
Proof.
  intros Hh Hw E Hd Hm.
  assert (inv w1) as I1.
  { destruct Hh as ((_ & _ & Hget) & _).
    destruct (Hget w Hw) as (d' & w' & E' & I'). congruence. }
  destruct (healthy_pipeline inv self cid p w1 Hh I1) as (r & wf & evs & Hp & _).
  exists r, wf, evs. split; [|exact Hp].
  eapply pipeline_returns; eassumption.
Qed.

(** What a request that went through steps 2 to 9 did to its collaborators:
    the prompt append was applied to the world the session load left, the
    retrieval ran in the world that append left, the LLM ran on the payload
    the formatter prepared, and the assistant append, applied with the
    response and citations returned, left the final world. *)
Lemma pipeline_steps self cid p w1 r wf evs :
  pipeline utcnow self cid p w1 r wf evs →
  ∃ w2 c h payload w7 w8 w10,
    add_prompt_to_chat (chat_utils self) cid p w1 = (Return (), w2) ∧
    (∀ e, (query_chat_docs (chroma_utils self) cid p w2).1 = Raise e →
          Format_rag_context ∅ ∈ evs ∧
          (formatter_contract (context_formatter self) → c = [])) ∧
    prepare_llm_payload (context_formatter self) c h p w7
    = (Return payload, w8) ∧
    outcome (_generate_llm_response self payload w8) = Return (response r) ∧
    (∀ ev, ev ∈ calls (_generate_llm_response self payload w8) → ev ∈ evs) ∧
    add_assistant_response_to_chat (chat_utils self)
      cid (response r) (citations r) w10 = (Return (), wf) ∧
    contextUsed r = length c ∧ historyUsed r = length h.
Proof.
  intros Hp.
  inversion Hp as [w2 w3 w4 w5 w6 w7 w8 w9 w10 wf' rag ctx d' hist c h payload
                    llm_calls resp cs E2 E3 E4 E5 E6 E7 E8 E9 E10 E11]; subst.
  exists w2, c, h, payload, w7, w8, w10. cbn.
  split; [exact E2|]. split; [|split; [exact E8|]].
  - intros e He.
    destruct (retrieve_run self cid p w2) as (rag' & Hrun & _ & Hempty).
    rewrite Hrun in E3. injection E3 as <- _.
    rewrite (Hempty e He) in *.
    split; [do 2 apply list_elem_of_further; apply list_elem_of_here|].
    intros [Hfmt Htrunc]. pose proof (Hfmt _ _ _ E4) as ->.
    destruct (Htrunc _ _ _ _ _ _ _ E7) as [Hlen _].
    destruct c; [reflexivity | cbn in Hlen; lia].
  - rewrite E9. cbn. split; [reflexivity|]. split; [|auto].
    intros ev Hin. rewrite !elem_of_cons, !elem_of_app. do 7 right. left.
    exact Hin.
Qed.

(** C1: whenever [process_chat_prompt] returns a response, the session was
    loaded, [add_prompt_to_chat chat_id prompt] was applied to the world the
    load left and returned, and [add_assistant_response_to_chat] was applied
    with the returned text and citations, returned, and left the final
    world; the calls issued contain exactly that one user append followed by
    exactly that one assistant append.  For a valid chat the call does
    return as soon as the store and the formatter work, whatever the vector
    store and the LLM do. *)
Theorem one_user_and_one_assistant_append self cid p uid w :
  (∀ r, outcome (process_chat_prompt utcnow self cid p uid w) = Return r →
     (∃ d w1 w2 w10 evs,
        get_chat (chat_utils self) cid w = (Return (Some d), w1) ∧
        add_prompt_to_chat (chat_utils self) cid p w1 = (Return (), w2) ∧
        add_assistant_response_to_chat (chat_utils self)
          cid (response r) (citations r) w10
        = (Return (), world (process_chat_prompt utcnow self cid p uid w)) ∧
        pipeline utcnow self cid p w1 r
          (world (process_chat_prompt utcnow self cid p uid w)) evs ∧
        calls (process_chat_prompt utcnow self cid p uid w)
        = Get_chat cid :: evs) ∧
     List.filter is_user_append
       (calls (process_chat_prompt utcnow self cid p uid w))
     = [Add_prompt_to_chat cid p] ∧
     List.filter is_assistant_append
       (calls (process_chat_prompt utcnow self cid p uid w))
     = [Add_assistant_response_to_chat cid (response r) (citations r)] ∧
     List.filter is_store_write
       (calls (process_chat_prompt utcnow self cid p uid w))
     = [Add_prompt_to_chat cid p;
        Add_assistant_response_to_chat cid (response r) (citations r)]) ∧
  (∀ inv d w1,
     healthy inv self cid → inv w →
     get_chat (chat_utils self) cid w = (Return (Some d), w1) →
     truthy (VDict d) = true →
     owner_mismatch d uid = false →
     ∃ r, outcome (process_chat_prompt utcnow self cid p uid w) = Return r).
Proof.
  split.
  - intros r Hr.
    destruct (process_chat_prompt utcnow self cid p uid w) as [o wf evs] eqn:E.
    cbn in Hr. subst o.
    destruct (process_returns_inv _ _ _ _ _ _ _ _ E)
      as (d & w1 & evs' & Eload & _ & _ & Hp & ->).
    destruct (pipeline_store_writes _ _ _ _ _ _ _ Hp) as (_ & Hu & Ha & Hs).
    destruct (pipeline_steps _ _ _ _ _ _ _ Hp)
      as (w2 & _ & _ & _ & _ & _ & w10 & Eadd & _ & _ & _ & _ & Easst & _).
    cbn. split; [|auto].
    exists d, w1, w2, w10, evs'. auto.
  - intros inv d w1 Hh Hw E Hd Hm.
    destruct (healthy_returns inv self cid p uid w d w1 Hh Hw E Hd Hm)
      as (r & wf & evs & -> & _).
    exists r. reflexivity.
Qed.

(** C2 (amended): [process_chat_prompt] raises [ValueError "Chat not found:
    <chat_id>"] whenever [get_chat] returns no session ([None] or an empty
    document), and [ValueError "User ID does not match chat owner"] whenever
    a non-empty userId is supplied that differs from the session's [userId];
    an omitted or empty userId is not checked.  If the chat exists and the
    userId is omitted, empty or equal to the owner, validation passes (the
    prompt is appended), any response returned carries that chatId, and the
    call does return one when the store and the formatter work. *)
Theorem validation_outcomes self cid p uid w chat w1 :
  get_chat (chat_utils self) cid w = (Return chat, w1) →
  (chat_found chat = false →
     outcome (process_chat_prompt utcnow self cid p uid w)
     = Raise (ValueError ("Chat not found: " +:+ cid))) ∧
  (∀ d u,
     chat = Some d → truthy (VDict d) = true →
     uid = Some u → u ≠ "" → get d "userId" ≠ VStr u →
     outcome (process_chat_prompt utcnow self cid p uid w)
     = Raise (ValueError "User ID does not match chat owner")) ∧
  (∀ d,
     chat = Some d → truthy (VDict d) = true →
     (uid = None ∨ uid = Some "" ∨
      ∃ u, uid = Some u ∧ d !! "userId" = Some (VStr u)) →
     (∃ rest, calls (process_chat_prompt utcnow self cid p uid w)
              = Get_chat cid :: Add_prompt_to_chat cid p :: rest) ∧
     (∀ r, outcome (process_chat_prompt utcnow self cid p uid w) = Return r →
           chatId r = cid) ∧
     (∀ inv, healthy inv self cid → inv w →
        ∃ r, outcome (process_chat_prompt utcnow self cid p uid w) = Return r ∧
             chatId r = cid)).
Proof.
  intros E. split; [|split].
  - intros Hc. rewrite process_chat_prompt_unfold.
    rewrite (chat_missing_body self cid p uid w chat w1 E Hc). reflexivity.
  - intros d u -> Hd -> Hu Hne. rewrite process_chat_prompt_unfold.
    rewrite (owner_mismatch_body self cid p (Some u) w d w1 E Hd);
      [reflexivity|].
    apply owner_mismatch_true. eauto.
  - intros d -> Hd Huid. apply owner_mismatch_false in Huid.
    split; [|split].
    + eapply validation_passes_calls; eassumption.
    + intros r Hr.
      destruct (process_chat_prompt utcnow self cid p uid w) as [o wf evs] eqn:E'.
      cbn in Hr. subst o.
      destruct (process_returns_inv _ _ _ _ _ _ _ _ E')
        as (d' & w1' & evs' & _ & _ & _ & Hp & _).
      apply (pipeline_store_writes _ _ _ _ _ _ _ Hp).
    + intros inv Hh Hw.
      destruct (healthy_returns inv self cid p uid w d w1 Hh Hw E Hd Huid)
        as (r & wf & evs & -> & Hp).
      exists r. split; [reflexivity|].
      apply (pipeline_store_writes _ _ _ _ _ _ _ Hp).
Qed.

(** C3: [_generate_llm_response] never raises, whatever the payload, and
    returns the fixed fallback string when the LLM generation call it makes
    raises.  In a request of [process_chat_prompt] that returns, the
    response is what [_generate_llm_response] returned on the payload the
    formatter prepared, and that text was appended as the one assistant
    message, by an append that returned and left the final world; so when
    the LLM call of this request raised, the response is the fallback
    string and the fallback is what was appended.  The same holds of every
    request when the LLM fails on every call; and with a working store and
    formatter the request does return. *)
Theorem llm_failure_falls_back self :
  (∀ payload w,
     ∃ s, outcome (_generate_llm_response self payload w) = Return s) ∧
  (∀ payload w l prompt e,
     llm self = Some l →
     payload !! "prompt" = Some prompt →
     (if has_nonempty payload "context" || has_nonempty payload "history"
      then (generate_with_context l prompt
              (get_or payload "context" (VList []))
              (get_or payload "history" (VList [])) w).1
      else (generate l prompt w).1) = Raise e →
     outcome (_generate_llm_response self payload w)
     = Return fallback_response) ∧
  (∀ cid p uid w r,
     outcome (process_chat_prompt utcnow self cid p uid w) = Return r →
     ∃ c h payload w7 w8 w10,
       prepare_llm_payload (context_formatter self) c h p w7
       = (Return payload, w8) ∧
       outcome (_generate_llm_response self payload w8) = Return (response r) ∧
       (∀ ev, ev ∈ calls (_generate_llm_response self payload w8) →
              ev ∈ calls (process_chat_prompt utcnow self cid p uid w)) ∧
       add_assistant_response_to_chat (chat_utils self)
         cid (response r) (citations r) w10
       = (Return (), world (process_chat_prompt utcnow self cid p uid w)) ∧
       List.filter is_assistant_append
         (calls (process_chat_prompt utcnow self cid p uid w))
       = [Add_assistant_response_to_chat cid (response r) (citations r)] ∧
       (∀ l prompt e,
          llm self = Some l →
          payload !! "prompt" = Some prompt →
          (if has_nonempty payload "context" || has_nonempty payload "history"
           then (generate_with_context l prompt
                   (get_or payload "context" (VList []))
                   (get_or payload "history" (VList [])) w8).1
           else (generate l prompt w8).1) = Raise e →
          response r = fallback_response)) ∧
  (∀ inv cid p uid w d w1,
     healthy inv self cid → inv w →
     get_chat (chat_utils self) cid w = (Return (Some d), w1) →
     truthy (VDict d) = true →
     owner_mismatch d uid = false →
     ∃ r, outcome (process_chat_prompt utcnow self cid p uid w) = Return r) ∧
  (llm_down self →
     (∀ payload w,
        outcome (_generate_llm_response self payload w)
        = Return fallback_response) ∧
     (∀ cid p uid w r,
        outcome (process_chat_prompt utcnow self cid p uid w) = Return r →
        response r = fallback_response ∧
        List.filter is_assistant_append
          (calls (process_chat_prompt utcnow self cid p uid w))
        = [Add_assistant_response_to_chat cid fallback_response (citations r)]) ∧
     (∀ inv cid p uid w d w1,
        healthy inv self cid → inv w →
        get_chat (chat_utils self) cid w = (Return (Some d), w1) →
        truthy (VDict d) = true →
        owner_mismatch d uid = false →
        ∃ r, outcome (process_chat_prompt utcnow self cid p uid w) = Return r ∧
             response r = fallback_response)).
Proof.
  assert (∀ cid p w1 r wf evs, llm_down self →
            pipeline utcnow self cid p w1 r wf evs →
            response r = fallback_response) as Hresp.
  { intros cid p w1 r wf evs Hdown Hp. inversion Hp; subst. cbn.
    match goal with
    | H : _generate_llm_response _ ?pl ?w0 = _ |- _ =>
        pose proof (generate_llm_response_fallback self pl w0 Hdown) as Hf;
        rewrite H in Hf; cbn in Hf; congruence
    end. }
  assert (∀ payload w l prompt e,
            llm self = Some l →
            payload !! "prompt" = Some prompt →
            (if has_nonempty payload "context" || has_nonempty payload "history"
             then (generate_with_context l prompt
                     (get_or payload "context" (VList []))
                     (get_or payload "history" (VList [])) w).1
             else (generate l prompt w).1) = Raise e →
            outcome (_generate_llm_response self payload w)
            = Return fallback_response) as Hpt.
  { intros payload w l prompt e Hl Hp.
    unfold _generate_llm_response, has_nonempty, the_llm, getitem.
    rewrite Hl, Hp.
    destruct (truthy (get payload "context") || truthy (get payload "history"));
      exec; cbn; congruence. }
  split; [apply generate_llm_response_returns|].
  split; [exact Hpt|].
  split.
  { intros cid p uid w r Hr.
    destruct (process_chat_prompt utcnow self cid p uid w) as [o wf evs] eqn:E.
    cbn in Hr. subst o.
    destruct (process_returns_inv _ _ _ _ _ _ _ _ E)
      as (d & w1 & evs' & _ & _ & _ & Hp & ->).
    destruct (pipeline_store_writes _ _ _ _ _ _ _ Hp) as (_ & _ & Ha & _).
    destruct (pipeline_steps _ _ _ _ _ _ _ Hp)
      as (w2 & c & h & payload & w7 & w8 & w10
          & _ & _ & Eprep & Egen & Hsub & Easst & _).
    exists c, h, payload, w7, w8, w10. cbn.
    split; [exact Eprep|]. split; [exact Egen|].
    split; [intros ev Hin; apply list_elem_of_further, Hsub, Hin|].
    split; [exact Easst|]. split; [exact Ha|].
    intros l prompt e Hl Hprompt Hraise.
    pose proof (Hpt payload w8 l prompt e Hl Hprompt Hraise) as Hf.
    congruence. }
  split.
  { intros inv cid p uid w d w1 Hh Hw E Hd Hm.
    destruct (healthy_returns inv self cid p uid w d w1 Hh Hw E Hd Hm)
      as (r & wf & evs & -> & _).
    exists r. reflexivity. }
  intros Hdown. split; [|split].
  - intros payload w. apply generate_llm_response_fallback, Hdown.
  - intros cid p uid w r Hr.
    destruct (process_chat_prompt utcnow self cid p uid w) as [o wf evs] eqn:E.
    cbn in Hr. subst o.
    destruct (process_returns_inv _ _ _ _ _ _ _ _ E)
      as (d & w1 & evs' & _ & _ & _ & Hp & ->).
    destruct (pipeline_store_writes _ _ _ _ _ _ _ Hp) as (_ & _ & Ha & _).
    pose proof (Hresp _ _ _ _ _ _ Hdown Hp) as Hfb.
    cbn. rewrite <- Hfb. auto.
  - intros inv cid p uid w d w1 Hh Hw E Hd Hm.
    destruct (healthy_returns inv self cid p uid w d w1 Hh Hw E Hd Hm)
      as (r & wf & evs & -> & Hp).
    exists r. split; [reflexivity | eapply Hresp; eassumption].
Qed.

(** C4: a retrieval call that raises makes [_retrieve_relevant_context]
    return the empty result instead of raising.  In a request of
    [process_chat_prompt] that returns, the retrieval ran in the world the
    prompt append left; when the query of this request raised there, the
    formatter was handed the empty result and the response has
    [contextUsed = 0] (for a formatter that formats the empty result as the
    empty context and only removes blocks when it truncates).  With a
    working store and formatter the request does return, whatever the
    vector store does.  The same holds of every request when the vector
    store fails on every query. *)
Theorem retrieval_failure_is_empty_context self :
  (∀ cid q w e,
     (query_chat_docs (chroma_utils self) cid q w).1 = Raise e →
     outcome (_retrieve_relevant_context self cid q w) = Return ∅) ∧
  (∀ cid p uid w r,
     outcome (process_chat_prompt utcnow self cid p uid w) = Return r →
     ∃ d w1 w2,
       get_chat (chat_utils self) cid w = (Return (Some d), w1) ∧
       add_prompt_to_chat (chat_utils self) cid p w1 = (Return (), w2) ∧
       ∀ e,
         (query_chat_docs (chroma_utils self) cid p w2).1 = Raise e →
         Format_rag_context ∅
         ∈ calls (process_chat_prompt utcnow self cid p uid w) ∧
         (formatter_contract (context_formatter self) →
          contextUsed r = 0%nat)) ∧
  (∀ inv cid p uid w d w1,
     healthy inv self cid → inv w →
     get_chat (chat_utils self) cid w = (Return (Some d), w1) →
     truthy (VDict d) = true →
     owner_mismatch d uid = false →
     ∃ r, outcome (process_chat_prompt utcnow self cid p uid w) = Return r) ∧
  (retrieval_down self →
     (∀ cid q w, outcome (_retrieve_relevant_context self cid q w) = Return ∅) ∧
     (formatter_contract (context_formatter self) →
      ∀ cid p uid w r,
        outcome (process_chat_prompt utcnow self cid p uid w) = Return r →
        contextUsed r = 0%nat) ∧
     (∀ inv cid p uid w d w1,
        healthy inv self cid → inv w →
        get_chat (chat_utils self) cid w = (Return (Some d), w1) →
        truthy (VDict d) = true →
        owner_mismatch d uid = false →
        ∃ r, outcome (process_chat_prompt utcnow self cid p uid w) = Return r)).
Proof.
  assert (∀ cid q w e,
            (query_chat_docs (chroma_utils self) cid q w).1 = Raise e →
            outcome (_retrieve_relevant_context self cid q w) = Return ∅) as Hpt.
  { intros cid q w e He.
    destruct (retrieve_run self cid q w) as (rag & -> & _ & Hrag).
    cbn. f_equal. eauto. }
  assert (retrieval_down self → ∀ cid q w,
            outcome (_retrieve_relevant_context self cid q w) = Return ∅) as Hall.
  { intros Hdown cid q w. destruct (Hdown cid q w) as (e & w' & He).
    apply (Hpt cid q w e). rewrite He. reflexivity. }
  assert (∀ inv cid p uid w d w1,
            healthy inv self cid → inv w →
            get_chat (chat_utils self) cid w = (Return (Some d), w1) →
            truthy (VDict d) = true →
            owner_mismatch d uid = false →
            ∃ r, outcome (process_chat_prompt utcnow self cid p uid w)
                 = Return r) as Hret.
  { intros inv cid p uid w d w1 Hh Hw E Hd Hm.
    destruct (healthy_returns inv self cid p uid w d w1 Hh Hw E Hd Hm)
      as (r & wf & evs & -> & _).
    exists r. reflexivity. }
  split; [exact Hpt|].
  split.
  { intros cid p uid w r Hr.
    destruct (process_chat_prompt utcnow self cid p uid w) as [o wf evs] eqn:E.
    cbn in Hr. subst o.
    destruct (process_returns_inv _ _ _ _ _ _ _ _ E)
      as (d & w1 & evs' & Eload & _ & _ & Hp & ->).
    destruct (pipeline_steps _ _ _ _ _ _ _ Hp)
      as (w2 & c & h & payload & w7 & w8 & w10
          & Eadd & Hquery & _ & _ & _ & _ & Hused & _).
    exists d, w1, w2. split; [exact Eload|]. split; [exact Eadd|].
    intros e He. destruct (Hquery e He) as [Hin Hzero]. cbn.
    split; [apply list_elem_of_further, Hin|].
    intros Hfmt. rewrite Hused, (Hzero Hfmt). reflexivity. }
  split; [exact Hret|].
  intros Hdown. split; [auto|]. split; [|exact Hret].
  intros [Hempty Htrunc] cid p uid w r Hr.
  destruct (process_chat_prompt utcnow self cid p uid w) as [o wf evs] eqn:E.
  cbn in Hr. subst o.
  destruct (process_returns_inv _ _ _ _ _ _ _ _ E)
    as (d & w1 & evs' & _ & _ & _ & Hp & _).
  inversion Hp; subst. cbn.
  match goal with
  | H : _retrieve_relevant_context _ ?c ?q ?w0 = _ |- _ =>
      pose proof (Hall Hdown c q w0) as Hr0; rewrite H in Hr0; cbn in Hr0;
      injection Hr0 as ->
  end.
  match goal with
  | H : format_rag_context _ ∅ _ = (Return ?l, _) |- _ =>
      pose proof (Hempty _ _ _ H); subst l
  end.
  match goal with
  | H : truncate_context_if_needed _ [] _ _ _ = _ |- _ =>
      destruct (Htrunc _ _ _ _ _ _ _ H) as [Hlen _]
  end.
  cbn in Hlen. lia.
Qed.

(** C5: when the [try] block of [process_chat_prompt] raises [e], at
    whatever step, the handler attempts one append of the apology message
    and the call raises [e] itself, whether that append returned or raised;
    a missing session and an owner mismatch are raised to the caller in this
    way, and a response is returned only when no step raised. *)
Theorem error_path_apologises_and_reraises self cid p uid w :
  (∀ e w1 t1 res w2,
     process_chat_prompt_body utcnow self cid p uid w = Run (Raise e) w1 t1 →
     add_assistant_response_to_chat (chat_utils self) cid error_response [] w1
     = (res, w2) →
     process_chat_prompt utcnow self cid p uid w
     = Run (Raise e) w2
           (t1 ++ [Add_assistant_response_to_chat cid error_response []])) ∧
  (∀ chat w1,
     get_chat (chat_utils self) cid w = (Return chat, w1) →
     chat_found chat = false →
     outcome (process_chat_prompt utcnow self cid p uid w)
     = Raise (ValueError ("Chat not found: " +:+ cid)) ∧
     Add_assistant_response_to_chat cid error_response []
     ∈ calls (process_chat_prompt utcnow self cid p uid w)) ∧
  (∀ d w1,
     get_chat (chat_utils self) cid w = (Return (Some d), w1) →
     truthy (VDict d) = true →
     owner_mismatch d uid = true →
     outcome (process_chat_prompt utcnow self cid p uid w)
     = Raise (ValueError "User ID does not match chat owner") ∧
     Add_assistant_response_to_chat cid error_response []
     ∈ calls (process_chat_prompt utcnow self cid p uid w)) ∧
  (∀ r,
     outcome (process_chat_prompt utcnow self cid p uid w) = Return r →
     outcome (process_chat_prompt_body utcnow self cid p uid w) = Return r).
Proof.
  split; [|split; [|split]].
  - intros e w1 t1 res w2 Hbody Happ.
    rewrite process_chat_prompt_unfold, Hbody, Happ. reflexivity.
  - intros chat w1 E Hc. rewrite process_chat_prompt_unfold.
    rewrite (chat_missing_body self cid p uid w chat w1 E Hc). cbn.
    split; [reflexivity | set_solver].
  - intros d w1 E Hd Hm. rewrite process_chat_prompt_unfold.
    rewrite (owner_mismatch_body self cid p uid w d w1 E Hd Hm). cbn.
    split; [reflexivity | set_solver].
  - intros r. rewrite process_chat_prompt_unfold.
    destruct (process_chat_prompt_body utcnow self cid p uid w) as [[r'|e] w1 t1];
      cbn; [auto | discriminate].
Qed.

(** C10: when validation fails (no session, or an owner mismatch) the calls
    of [process_chat_prompt] are the session load and the apology append
    with an empty citations list, and nothing else: the prompt is not
    appended. *)
Theorem failed_validation_writes_only_the_apology self cid p uid w chat w1 :
  get_chat (chat_utils self) cid w = (Return chat, w1) →
  chat_found chat = false ∨ (∃ d, chat = Some d ∧ owner_mismatch d uid = true) →
  calls (process_chat_prompt utcnow self cid p uid w)
  = [Get_chat cid; Add_assistant_response_to_chat cid error_response []] ∧
  List.filter is_user_append
    (calls (process_chat_prompt utcnow self cid p uid w)) = [] ∧
  List.filter is_store_write
    (calls (process_chat_prompt utcnow self cid p uid w))
  = [Add_assistant_response_to_chat cid error_response []].
Proof.
  intros E Hfail.
  assert (calls (process_chat_prompt utcnow self cid p uid w)
          = [Get_chat cid; Add_assistant_response_to_chat cid error_response []])
    as ->; [|auto].
  rewrite process_chat_prompt_unfold.
  destruct (chat_found chat) eqn:Hc.
  - destruct Hfail as [? | (d & -> & Hm)]; [discriminate|].
    rewrite (owner_mismatch_body self cid p uid w d w1 E Hc Hm). reflexivity.
  - rewrite (chat_missing_body self cid p uid w chat w1 E Hc). reflexivity.
Qed.

(** *** The token-budget step *)

(** In any run, returning or not, the payload is prepared from the original
    prompt and from what the truncation returned for the configured
    budget. *)
Lemma prepare_calls self cid p uid w c h q :
  Prepare_llm_payload c h q ∈ calls (process_chat_prompt utcnow self cid p uid w) →
  q = p ∧
  ∃ ctx hist w6 w7,
    truncate_context_if_needed (context_formatter self) ctx hist
      (max_tokens self) w6 = (Return (c, h), w7) ∧
    Truncate_context_if_needed ctx hist (max_tokens self)
    ∈ calls (process_chat_prompt utcnow self cid p uid w).
Proof.
  rewrite process_chat_prompt_unfold. unfold process_chat_prompt_body.
  exec; cbn.
  all: repeat match goal with
         | H : _retrieve_relevant_context ?s ?c ?q ?w0 = _ |- _ =>
             destruct (retrieve_run s c q w0) as (? & Hrun & _);
             rewrite Hrun in H; first [discriminate H | injection H as <- <- <-]
         | H : _generate_llm_response ?s ?pl ?w0 = Run _ _ ?t |- _ =>
             let Hc := fresh "Hc" in
             pose proof (generate_llm_response_calls s pl w0) as Hc;
             rewrite H in Hc; cbn in Hc; clear H;
             destruct Hc as [-> | (? & -> & ?)]
         end.
  all: cbn; rewrite ?elem_of_cons, ?elem_of_nil; intros Hin.
  all: repeat match type of Hin with _ ∨ _ => destruct Hin as [Hin|Hin] end.
  all: try discriminate; try contradiction.
  all: try (subst; cbn in *; discriminate).
  all: injection Hin as -> -> ->; (split; [reflexivity|]).
  all: eexists _, _, _, _; (split; [eassumption|]); set_solver.
Qed.

(** In any run the vector store is queried with the chat id and the prompt,
    and with nothing else. *)
Lemma retrieval_calls self cid p uid w ev :
  ev ∈ calls (process_chat_prompt utcnow self cid p uid w) →
  is_retrieval ev = true →
  ev = Query_chat_docs cid p.
Proof.
  rewrite process_chat_prompt_unfold. unfold process_chat_prompt_body.
  exec; cbn.
  all: repeat match goal with
         | H : _retrieve_relevant_context ?s ?c ?q ?w0 = _ |- _ =>
             destruct (retrieve_run s c q w0) as (? & Hrun & _);
             rewrite Hrun in H; first [discriminate H | injection H as <- <- <-]
         | H : _generate_llm_response ?s ?pl ?w0 = Run _ _ ?t |- _ =>
             let Hc := fresh "Hc" in
             pose proof (generate_llm_response_calls s pl w0) as Hc;
             rewrite H in Hc; cbn in Hc; clear H;
             destruct Hc as [-> | (? & -> & ?)]
         end.
  all: cbn; rewrite ?elem_of_cons, ?elem_of_nil; intros Hin Hev.
  all: repeat match type of Hin with _ ∨ _ => destruct Hin as [Hin|Hin] end.
  all: try contradiction; subst; try reflexivity; try discriminate.
  all: match goal with
       | H : is_llm_call ?e = true |- _ => destruct e; discriminate
       end.
Qed.

(** The history is formatted from the session as re-loaded after the prompt
    append, under the configured [max_chat_history]. *)
Lemma history_limit_applied self cid p uid w r :
  outcome (process_chat_prompt utcnow self cid p uid w) = Return r →
  ∃ rag chat_with_history rest,
    calls (process_chat_prompt utcnow self cid p uid w)
    = ([Get_chat cid; Add_prompt_to_chat cid p; Query_chat_docs cid p;
        Format_rag_context rag; Get_chat cid;
        Format_chat_history
          (get_or chat_with_history "conversation_history" (VList []))
          (max_chat_history self)] ++ rest)%list.
Proof.
  intros Hr.
  destruct (process_chat_prompt utcnow self cid p uid w) as [o wf evs] eqn:E.
  cbn in Hr. subst o.
  destruct (process_returns_inv _ _ _ _ _ _ _ _ E)
    as (d & w1 & evs' & _ & _ & _ & Hp & ->).
  inversion Hp; subst. cbn. eexists _, _, _. reflexivity.
Qed.

(** *** [get_chat_summary] *)

Lemma get_chat_summary_returns self cid w :
  ∃ s, outcome (get_chat_summary self cid w) = Return s.
Proof. unfold get_chat_summary. exec; cbn; eauto. Qed.

(** [get_chat_summary] counts the messages kept under ["conversationHistory"];
    [process_chat_prompt] formats those kept under ["conversation_history"].
    For a session document that has only the former, the summary counts its
    messages and the history handed to the formatter is empty. *)
Lemma summary_reads_another_history_key self cid w d w1 msgs :
  get_chat (chat_utils self) cid w = (Return (Some d), w1) →
  truthy (VDict d) = true →
  d !! "conversationHistory" = Some (VList msgs) →
  d !! "conversation_history" = None →
  (∃ s, outcome (get_chat_summary self cid w) = Return s ∧
        s !! "messageCount" = Some (VInt (Z.of_nat (length msgs)))) ∧
  get_or d "conversation_history" (VList []) = VList [].
Proof.
  intros E Hd Hsum Hproc. split.
  - unfold get_chat_summary. unfold_monad. rewrite E. cbn beta iota.
    rewrite Hd. unfold get_or. rewrite Hsum. cbn beta iota delta [negb default len].
    cbn beta iota.
    destruct msgs as [|m msgs]; cbn -[last].
    + eexists. split; reflexivity.
    + destruct (last (m :: msgs)) as [x|] eqn:El.
      * cbn. eexists. split; reflexivity.
      * apply last_None in El. discriminate.
  - unfold get_or. rewrite Hproc. reflexivity.
Qed.

(** *** [_generate_llm_response]: the generation mode *)

(** C8: for every payload, [_generate_llm_response] selects the
    context-aware mode exactly when [payload.get('context')] or
    [payload.get('history')] is non-empty (truthy): any LLM call it issues
    is [generate_with_context], with the prompt, context and history of the
    payload, in that case, and [generate] with the prompt alone otherwise.
    For a payload that carries a prompt it issues exactly that one call and
    returns what the call returned. *)
Theorem generation_mode self payload w :
  (∀ ev,
     ev ∈ calls (_generate_llm_response self payload w) →
     ∃ prompt,
       payload !! "prompt" = Some prompt ∧
       ev = if has_nonempty payload "context" || has_nonempty payload "history"
            then Generate_with_context prompt
                   (get_or payload "context" (VList []))
                   (get_or payload "history" (VList []))
            else Generate prompt) ∧
  (∀ l prompt,
     llm self = Some l →
     payload !! "prompt" = Some prompt →
     calls (_generate_llm_response self payload w)
     = (if has_nonempty payload "context" || has_nonempty payload "history"
        then [Generate_with_context prompt
                (get_or payload "context" (VList []))
                (get_or payload "history" (VList []))]
        else [Generate prompt]) ∧
     (∀ s,
        (if has_nonempty payload "context" || has_nonempty payload "history"
         then (generate_with_context l prompt
                 (get_or payload "context" (VList []))
                 (get_or payload "history" (VList [])) w).1
         else (generate l prompt w).1) = Return s →
        outcome (_generate_llm_response self payload w) = Return s)).
Proof.
  split.
  - intros ev. unfold _generate_llm_response, has_nonempty, the_llm, getitem.
    destruct (truthy (get payload "context") || truthy (get payload "history"));
      exec; cbn; rewrite ?elem_of_cons, ?elem_of_nil; intros Hin;
      try contradiction; destruct Hin as [-> | []]; eauto.
  - intros l prompt Hl Hp.
    unfold _generate_llm_response, has_nonempty, the_llm, getitem.
    rewrite Hl, Hp.
    destruct (truthy (get payload "context") || truthy (get payload "history"));
      exec; cbn; (split; [reflexivity|]); intros s0; congruence.
Qed.

Lemma has_nonempty_list (payload : dict) (k : string) (l : list value) :
  payload !! k = Some (VList l) →
  has_nonempty payload k = true ↔ l ≠ [].
Proof.
  intros H. unfold has_nonempty, get. rewrite H. apply truthy_list.
Qed.

Lemma has_nonempty_missing (payload : dict) (k : string) :
  payload !! k = None → has_nonempty payload k = false.
Proof. intros H. unfold has_nonempty, get. rewrite H. reflexivity. Qed.

(** *** [health_check] *)

Lemma health_check_run self w :
  health_check utcnow self w =
  let probe1 := get_collection (chroma_utils self) w in
  let probe2 := get_chat (chat_utils self) "health_check_test" probe1.2 in
  Run (Return
         {| chatbot_service := true;
            chroma_db := match probe1.1 with
                         | Return collection => is_not_None collection
                         | Raise _ => false
                         end;
            mongodb := match probe2.1 with
                       | Return _ => true
                       | Raise _ => false
                       end;
            perplexity_llm := is_not_None (llm self);
            health_timestamp := utcnow w |})
      probe2.2
      [Get_collection; Get_chat "health_check_test"].
Proof.
  unfold health_check. unfold_monad. cbn zeta beta iota.
  destruct (get_collection (chroma_utils self) w) as [[c|e] w1]; cbn;
    destruct (get_chat (chat_utils self) "health_check_test" w1) as [[o|e'] w2];
    reflexivity.
Qed.

(** C9 (amended): [health_check] never raises and always returns a report.
    It probes the vector store and the chat store, each with one call
    ([get_collection], [get_chat "health_check_test"]), and both calls are
    issued whatever the other does: the chroma entry is [true] exactly when
    [get_collection] returned a collection, the mongodb entry exactly when
    [get_chat] did not raise.  The LLM is not probed by a call: the
    perplexity entry only tells that [self.llm] is set.  The orchestrator
    entry is [true].  So with the vector store disabled and the chat store
    reachable the report has chroma [false], mongodb [true] and perplexity
    [true]. *)
Theorem health_check_probes_independently self w :
  ∃ h,
    outcome (health_check utcnow self w) = Return h ∧
    calls (health_check utcnow self w)
    = [Get_collection; Get_chat "health_check_test"] ∧
    chatbot_service h = true ∧
    (chroma_db h = true ↔
     ∃ c w1, get_collection (chroma_utils self) w = (Return (Some c), w1)) ∧
    (mongodb h = true ↔
     ∃ o w2, get_chat (chat_utils self) "health_check_test"
               (get_collection (chroma_utils self) w).2 = (Return o, w2)) ∧
    perplexity_llm h = is_not_None (llm self) ∧
    List.filter is_llm_call (calls (health_check utcnow self w)) = [] ∧
    (∀ l,
       llm self = Some l →
       (∃ e w1, get_collection (chroma_utils self) w = (Raise e, w1)) →
       mongodb h = true →
       chroma_db h = false ∧ mongodb h = true ∧ perplexity_llm h = true).
Proof.
  rewrite health_check_run. cbn zeta. eexists. split; [reflexivity|].
  split; [reflexivity|]. cbn [chatbot_service chroma_db mongodb perplexity_llm].
  split; [reflexivity|].
  destruct (get_collection (chroma_utils self) w) as [r1 w1] eqn:E1. cbn [fst snd].
  destruct (get_chat (chat_utils self) "health_check_test" w1) as [r2 w2] eqn:E2.
  cbn [fst snd].
  split; [|split; [|split; [|split]]].
  - destruct r1 as [[c|]|e]; cbn; split; eauto; try discriminate.
    all: intros (c' & w' & [=]).
  - destruct r2 as [o|e]; cbn; split; eauto; try discriminate.
    intros (o & w' & [=]).
  - reflexivity.
  - reflexivity.
  - intros l Hl (e & w' & [= -> ->]) Hm. rewrite Hl. cbn. auto.
Qed.

End Properties.

(** ** The token budget of the spec *)

Section TokenBudgetProperties.

Variable estimate : value → nat.

Lemma keep_within_fits (budget : nat) (blocks : list value) :
  (total_tokens estimate (keep_within estimate budget blocks) ≤ budget)%nat.
Proof.
  revert budget. induction blocks as [|b rest IH]; intros budget; cbn.
  - lia.
  - destruct (Nat.leb_spec (estimate b) budget) as [Hle|Hgt]; cbn; [|lia].
    specialize (IH (budget - estimate b)%nat). unfold total_tokens in IH. lia.
Qed.

Lemma keep_within_length (budget : nat) (blocks : list value) :
  (length (keep_within estimate budget blocks) ≤ length blocks)%nat.
Proof.
  revert budget. induction blocks as [|b rest IH]; intros budget; cbn.
  - lia.
  - destruct (estimate b <=? budget)%nat; cbn; [|lia].
    specialize (IH (budget - estimate b)%nat). lia.
Qed.

Lemma truncate_to_budget_fits (context history : list value) (budget : Z) :
  (0 ≤ budget)%Z →
  (Z.of_nat (total_tokens estimate (truncate_to_budget estimate context history budget).1
             + total_tokens estimate (truncate_to_budget estimate context history budget).2)
   ≤ budget)%Z.
Proof.
  intros Hb. unfold truncate_to_budget.
  destruct (Nat.leb_spec (total_tokens estimate context + total_tokens estimate history)
              (Z.to_nat budget)) as [H1|H1]; cbn [fst snd]; [lia|].
  destruct (Nat.leb_spec (total_tokens estimate history) (Z.to_nat budget))
    as [H2|H2]; cbn [fst snd].
  - pose proof (keep_within_fits
                  (Z.to_nat budget - total_tokens estimate history) context). lia.
  - pose proof (keep_within_fits (Z.to_nat budget) (reverse history)) as H3.
    unfold total_tokens in *. rewrite sum_list_with_reverse. cbn. lia.
Qed.

Lemma truncate_to_budget_shrinks (context history : list value) (budget : Z) :
  (length (truncate_to_budget estimate context history budget).1 ≤ length context)%nat ∧
  (length (truncate_to_budget estimate context history budget).2 ≤ length history)%nat.
Proof.
  unfold truncate_to_budget.
  destruct (_ <=? _)%nat; cbn [fst snd]; [lia|].
  destruct (_ <=? _)%nat; cbn [fst snd].
  - split; [apply keep_within_length | lia].
  - split; [cbn; lia|].
    rewrite length_reverse.
    etrans; [apply keep_within_length|]. rewrite length_reverse. lia.
Qed.

(** C6: for a service built by the constructor over a formatter that
    truncates as the spec describes, every payload the request prepares is
    built from the original prompt, unchanged, and from a context and a
    history whose combined token estimate is at most 8000; a request that
    returns did prepare such a payload, and reports the sizes of that
    context and history. *)
Theorem token_budget_respected {W} (utcnow : W → string)
    (chroma : ChromaUtils W) (chat : ChatUtils W)
    (fmt : LLMContextFormatter W) (l : PerplexityLLM W)
    (cid p : string) (uid : option string) (w : W) :
  truncates_to_budget estimate fmt →
  (∀ c h q,
     Prepare_llm_payload c h q
     ∈ calls (process_chat_prompt utcnow (__init__ chroma chat fmt l) cid p uid w) →
     q = p ∧
     (Z.of_nat (total_tokens estimate c + total_tokens estimate h) ≤ 8000)%Z) ∧
  (∀ r,
     outcome (process_chat_prompt utcnow (__init__ chroma chat fmt l) cid p uid w)
     = Return r →
     ∃ c h,
       Prepare_llm_payload c h p
       ∈ calls (process_chat_prompt utcnow (__init__ chroma chat fmt l) cid p uid w) ∧
       contextUsed r = length c ∧ historyUsed r = length h).
Proof.
  intros Htrunc. split.
  - intros c h q Hin.
    destruct (prepare_calls utcnow _ _ _ _ _ _ _ _ Hin)
      as (-> & ctx & hist & w6 & w7 & E & _).
    split; [reflexivity|]. cbn in E. rewrite Htrunc in E.
    injection E as E _.
    pose proof (truncate_to_budget_fits ctx hist 8000 ltac:(lia)) as Hfit.
    rewrite E in Hfit. exact Hfit.
  - intros r Hr.
    destruct (process_chat_prompt utcnow (__init__ chroma chat fmt l) cid p uid w)
      as [o wf evs] eqn:E.
    cbn in Hr. subst o.
    destruct (process_returns_inv utcnow _ _ _ _ _ _ _ _ E)
      as (d & w1 & evs' & _ & _ & _ & Hp & ->).
    inversion Hp; subst. cbn.
    eexists _, _. split; [|split; reflexivity]. set_solver.
Qed.

End TokenBudgetProperties.

(** The budget at work on blocks estimated by their length: the context
    loses its least relevant blocks first; the history is cut, oldest turns
    first, only when it does not fit alone. *)
Example truncate_context_first :
  truncate_to_budget Demo.estimate_tokens
    [VStr "abc"; VStr "de"; VStr "f"] [VStr "xy"] 5
  = ([VStr "abc"], [VStr "xy"]).
Proof. reflexivity. Qed.

Example truncate_history_last :
  truncate_to_budget Demo.estimate_tokens
    [VStr "abc"] [VStr "old turn"; VStr "new"; VStr "er"] 5
  = ([], [VStr "new"; VStr "er"]).
Proof. reflexivity. Qed.

Example truncate_nothing_under_budget :
  truncate_to_budget Demo.estimate_tokens
    [VStr "abc"; VStr "de"] [VStr "xy"] 8000
  = ([VStr "abc"; VStr "de"], [VStr "xy"]).
Proof. vm_compute. reflexivity. Qed.

(** ** The in-memory deployment meets the conditions *)

Lemma demo_alter_keeps_c1 (f : dict → dict) (cid : string) (w : Demo.world) :
  Demo.has_c1 w →
  Demo.has_c1 (Demo.with_sessions (alter f cid (Demo.sessions w)) w).
Proof.
  unfold Demo.has_c1. cbn. intros [d Hd].
  destruct (decide (cid = "c1")) as [->|Hne].
  - rewrite lookup_alter_eq, Hd. cbn. eauto.
  - rewrite lookup_alter_ne by done. eauto.
Qed.

Lemma demo_healthy (chroma_up llm_up : bool) :
  healthy Demo.has_c1 (Demo.service true chroma_up llm_up) "c1".
Proof.
  split; [|split].
  - split; [|split].
    + intros p w Hw. eexists _, _. split; [reflexivity|].
      by apply demo_alter_keeps_c1.
    + intros r cs w Hw. eexists _, _. split; [reflexivity|].
      by apply demo_alter_keeps_c1.
    + intros w [d Hd]. exists d, w. cbn. rewrite Hd.
      split; [reflexivity | exists d; exact Hd].
  - repeat split; intros; eexists _, _; (split; [reflexivity | assumption]).
  - split.
    + intros cid q w r w' Hw. cbn. destruct chroma_up; cbn; congruence.
    + intros l [= <-]. split; intros; intros w r w' Hw; cbn;
        destruct llm_up; cbn; congruence.
Qed.

Lemma demo_llm_down (mongo_up chroma_up : bool) :
  llm_down (Demo.service mongo_up chroma_up false).
Proof. intros l [= <-]. split; intros; intros w; eexists _, _; reflexivity. Qed.

Lemma demo_retrieval_down (mongo_up llm_up : bool) :
  retrieval_down (Demo.service mongo_up false llm_up).
Proof. intros cid q w. eexists _, _. reflexivity. Qed.

Lemma demo_truncates_to_budget :
  truncates_to_budget Demo.estimate_tokens Demo.formatter.
Proof. intros c h b w. reflexivity. Qed.

Lemma demo_formatter_contract : formatter_contract Demo.formatter.
Proof.
  split.
  - intros w l w' [= <- _]. reflexivity.
  - intros c h b w c' h' w' [= E _].
    pose proof (truncate_to_budget_shrinks Demo.estimate_tokens c h b) as Hs.
    rewrite E in Hs. exact Hs.
Qed.

Lemma demo_w0_has_c1 : Demo.has_c1 Demo.w0.
Proof. exists Demo.session1. reflexivity. Qed.

(** ** The theorems at concrete requests *)

(** A request of the owner on the healthy deployment. *)
Example demo_request :
  outcome (process_chat_prompt Demo.clock (Demo.service true true true)
             "c1" "hello" (Some "u1") Demo.w0)
  = Return {| chatId := "c1";
              response := "grounded answer";
              citations := VStr <$> ["d1"; "d2"; "d3"; "d4"; "d5"; "d6"];
              contextUsed := 6;
              historyUsed := 1;
              timestamp := "2025-01-01T00:00:00" |}.
Proof. vm_compute. reflexivity. Qed.

(** The same request with the vector store and the LLM down. *)
Example demo_degraded_request :
  outcome (process_chat_prompt Demo.clock (Demo.service true false false)
             "c1" "hello" (Some "u1") Demo.w0)
  = Return {| chatId := "c1";
              response := fallback_response;
              citations := [];
              contextUsed := 0;
              historyUsed := 1;
              timestamp := "2025-01-01T00:00:00" |}.
Proof. vm_compute. reflexivity. Qed.

(** C1 on a degraded path: vector store and LLM both down. *)
Lemma one_user_and_one_assistant_append_witness :
  ∃ r,
    outcome (process_chat_prompt Demo.clock (Demo.service true false false)
               "c1" "hello" (Some "u1") Demo.w0) = Return r ∧
    List.filter is_store_write
      (calls (process_chat_prompt Demo.clock (Demo.service true false false)
                "c1" "hello" (Some "u1") Demo.w0))
    = [Add_prompt_to_chat "c1" "hello";
       Add_assistant_response_to_chat "c1" (response r) (citations r)] ∧
    ∃ w1 w2 w10,
      add_prompt_to_chat (chat_utils (Demo.service true false false))
        "c1" "hello" w1 = (Return (), w2) ∧
      add_assistant_response_to_chat (chat_utils (Demo.service true false false))
        "c1" (response r) (citations r) w10
      = (Return (),
         world (process_chat_prompt Demo.clock (Demo.service true false false)
                  "c1" "hello" (Some "u1") Demo.w0)).
Proof.
  destruct (one_user_and_one_assistant_append Demo.clock
              (Demo.service true false false) "c1" "hello" (Some "u1") Demo.w0)
    as [Hone Hret].
  destruct (Hret Demo.has_c1 Demo.session1 Demo.w0
              (demo_healthy false false) demo_w0_has_c1
              eq_refl eq_refl eq_refl) as [r Hr].
  exists r. split; [exact Hr|].
  destruct (Hone r Hr)
    as ((d & w1 & w2 & w10 & evs & _ & Eadd & Easst & _) & _ & _ & Hwrites).
  split; [exact Hwrites|]. exists w1, w2, w10. split; [exact Eadd | exact Easst].
Defined.

(** C2: an unknown chat, a foreign user and the owner. *)
Lemma validation_outcomes_witness :
  outcome (process_chat_prompt Demo.clock (Demo.service true true true)
             "c2" "hello" None Demo.w0)
  = Raise (ValueError "Chat not found: c2") ∧
  outcome (process_chat_prompt Demo.clock (Demo.service true true true)
             "c1" "hello" (Some "u2") Demo.w0)
  = Raise (ValueError "User ID does not match chat owner") ∧
  ∃ r, outcome (process_chat_prompt Demo.clock (Demo.service true true true)
                  "c1" "hello" (Some "u1") Demo.w0) = Return r ∧
       chatId r = "c1".
Proof.
  split; [|split].
  - apply (validation_outcomes Demo.clock (Demo.service true true true)
             "c2" "hello" None Demo.w0 None Demo.w0 eq_refl).
    reflexivity.
  - apply (validation_outcomes Demo.clock (Demo.service true true true)
             "c1" "hello" (Some "u2") Demo.w0 (Some Demo.session1) Demo.w0
             eq_refl) with (d := Demo.session1) (u := "u2");
      [reflexivity | reflexivity | reflexivity | discriminate | discriminate].
  - destruct (validation_outcomes Demo.clock (Demo.service true true true)
                "c1" "hello" (Some "u1") Demo.w0 (Some Demo.session1) Demo.w0
                eq_refl) as (_ & _ & Hok).
    destruct (Hok Demo.session1 eq_refl eq_refl) as (_ & _ & Hret).
    { right. right. exists "u1". split; reflexivity. }
    apply (Hret Demo.has_c1 (demo_healthy true true) demo_w0_has_c1).
Defined.

(** C2 as stated fails: the empty string is a supplied userId that differs
    from the owner "u1", and the request goes through without an
    Unauthorized error; and with an existing chat and no userId the call
    does not return a ChatResponse when the store refuses the prompt
    append. *)
Lemma empty_user_id_is_not_checked :
  (get_chat (chat_utils (Demo.service true true true)) "c1" Demo.w0
   = (Return (Some Demo.session1), Demo.w0) ∧
   get Demo.session1 "userId" = VStr "u1" ∧
   ∃ r, outcome (process_chat_prompt Demo.clock (Demo.service true true true)
                   "c1" "hello" (Some "") Demo.w0) = Return r ∧
        outcome (process_chat_prompt Demo.clock (Demo.service true true true)
                   "c1" "hello" (Some "") Demo.w0)
        ≠ Raise (ValueError "User ID does not match chat owner")) ∧
  (get_chat (chat_utils Demo.read_only_service) "c1" Demo.w0
   = (Return (Some Demo.session1), Demo.w0) ∧
   outcome (process_chat_prompt Demo.clock Demo.read_only_service
              "c1" "hello" None Demo.w0)
   = Raise (Demo.unavailable "mongodb write")).
Proof.
  split.
  - split; [reflexivity|]. split; [reflexivity|].
    eexists. split; [vm_compute; reflexivity|]. vm_compute. discriminate.
  - split; reflexivity.
Qed.

Lemma strict_healthy : healthy Demo.has_c1 Scenarios.strict_service "c1".
Proof.
  split; [|split].
  - split; [|split].
    + intros p w Hw. eexists _, _. split; [reflexivity|].
      by apply demo_alter_keeps_c1.
    + intros r cs w Hw. eexists _, _. split; [reflexivity|].
      by apply demo_alter_keeps_c1.
    + intros w [d Hd]. exists d, w. cbn. rewrite Hd.
      split; [reflexivity | exists d; exact Hd].
  - repeat split; intros; eexists _, _; (split; [reflexivity | assumption]).
  - split.
    + intros cid q w r w' Hw. cbn. destruct (String.eqb q ""); cbn; congruence.
    + intros l [= <-]. split; intros; intros w r w' Hw; cbn;
        repeat case_match; congruence.
Qed.

(** C3 on an LLM that answers other requests but rejects this one's empty
    prompt: the call of the request raised, the response is the fallback. *)
Lemma llm_failure_falls_back_witness :
  ∃ r,
    outcome (process_chat_prompt Demo.clock Scenarios.strict_service
               "c1" "" None Demo.w0) = Return r ∧
    response r = fallback_response.
Proof.
  destruct (llm_failure_falls_back Demo.clock Scenarios.strict_service)
    as (_ & _ & Hrequest & Hret & _).
  destruct (Hret Demo.has_c1 "c1" "" None Demo.w0 Demo.session1 Demo.w0
              strict_healthy demo_w0_has_c1 eq_refl eq_refl eq_refl)
    as [r Hr].
  exists r. split; [exact Hr|].
  destruct (Hrequest "c1" "" None Demo.w0 r Hr)
    as (c & h & payload & w7 & w8 & w10 & Eprep & _ & _ & _ & _ & Hfallback).
  injection Eprep as <- _.
  apply (Hfallback Scenarios.strict_perplexity (VStr "")
           (OtherException "BadRequest" "empty prompt") eq_refl eq_refl).
  destruct (has_nonempty _ "context" || has_nonempty _ "history"); reflexivity.
Defined.

(** C4 on a vector store that answers other queries but rejects this
    request's empty one: the query of the request raised, no context is
    used. *)
Lemma retrieval_failure_is_empty_context_witness :
  ∃ r,
    outcome (process_chat_prompt Demo.clock Scenarios.strict_service
               "c1" "" None Demo.w0) = Return r ∧
    contextUsed r = 0%nat.
Proof.
  destruct (retrieval_failure_is_empty_context Demo.clock
              Scenarios.strict_service) as (_ & Hrequest & Hret & _).
  destruct (Hret Demo.has_c1 "c1" "" None Demo.w0 Demo.session1 Demo.w0
              strict_healthy demo_w0_has_c1 eq_refl eq_refl eq_refl)
    as [r Hr].
  exists r. split; [exact Hr|].
  destruct (Hrequest "c1" "" None Demo.w0 r Hr) as (d & w1 & w2 & _ & _ & Hquery).
  destruct (Hquery (OtherException "InvalidArgument" "empty query") eq_refl)
    as [_ Hzero].
  apply Hzero. exact demo_formatter_contract.
Defined.

(** C5 with the chat store down: the session load raises, the apology
    append raises too, and the caller gets the first error. *)
Lemma error_path_apologises_and_reraises_witness :
  process_chat_prompt Demo.clock (Demo.service false true true)
    "c1" "hello" None Demo.w0
  = Run (Raise (Demo.unavailable "mongodb")) Demo.w0
        ([Get_chat "c1"] ++
         [Add_assistant_response_to_chat "c1" error_response []]).
Proof.
  destruct (error_path_apologises_and_reraises Demo.clock
              (Demo.service false true true) "c1" "hello" None Demo.w0)
    as [Hraise _].
  apply (Hraise (Demo.unavailable "mongodb") Demo.w0 [Get_chat "c1"]
           (Raise (Demo.unavailable "mongodb")) Demo.w0); reflexivity.
Defined.

(** C6 on a request that returns. *)
Lemma token_budget_respected_witness :
  ∃ c h,
    Prepare_llm_payload c h "hello"
    ∈ calls (process_chat_prompt Demo.clock (Demo.service true true true)
               "c1" "hello" None Demo.w0) ∧
    (Z.of_nat (total_tokens Demo.estimate_tokens c
               + total_tokens Demo.estimate_tokens h) ≤ 8000)%Z.
Proof.
  destruct (token_budget_respected Demo.estimate_tokens Demo.clock
              (Demo.chroma true) (Demo.chat true) Demo.formatter
              (Demo.perplexity true) "c1" "hello" None Demo.w0
              demo_truncates_to_budget) as [Hfit Hret].
  destruct (healthy_returns Demo.clock Demo.has_c1 (Demo.service true true true)
              "c1" "hello" None Demo.w0 Demo.session1 Demo.w0
              (demo_healthy true true) demo_w0_has_c1 eq_refl eq_refl eq_refl)
    as (r & wf & evs & Hr & _).
  destruct (Hret r) as (c & h & Hin & _).
  { unfold Demo.service in Hr. rewrite Hr. reflexivity. }
  exists c, h. split; [exact Hin|]. apply (Hfit c h "hello" Hin).
Defined.

(** C8 on a payload with a context and on a payload with a prompt only. *)
Lemma generation_mode_witness :
  calls (_generate_llm_response (Demo.service true true true)
           Demo.payload_with_context Demo.w0)
  = [Generate_with_context (VStr "hi") (VList [VStr "d1"]) (VList [])] ∧
  calls (_generate_llm_response (Demo.service true true true)
           Demo.payload_plain Demo.w0)
  = [Generate (VStr "hi")].
Proof.
  split.
  - destruct (generation_mode (Demo.service true true true)
                Demo.payload_with_context Demo.w0) as [_ Hmode].
    destruct (Hmode (Demo.perplexity true) (VStr "hi") eq_refl eq_refl)
      as [-> _].
    reflexivity.
  - destruct (generation_mode (Demo.service true true true)
                Demo.payload_plain Demo.w0) as [_ Hmode].
    destruct (Hmode (Demo.perplexity true) (VStr "hi") eq_refl eq_refl)
      as [-> _].
    reflexivity.
Defined.

(** C9 with only the vector store disabled. *)
Lemma health_check_probes_independently_witness :
  ∃ h,
    outcome (health_check Demo.clock (Demo.service true false true) Demo.w0)
    = Return h ∧
    chroma_db h = false ∧ mongodb h = true ∧ perplexity_llm h = true.
Proof.
  destruct (health_check_probes_independently Demo.clock
              (Demo.service true false true) Demo.w0)
    as (h & Hh & _ & _ & _ & Hmongo & _ & _ & Hscenario).
  exists h. split; [exact Hh|].
  apply (Hscenario (Demo.perplexity true) eq_refl).
  - exists (Demo.unavailable "chroma"), Demo.w0. reflexivity.
  - apply Hmongo. exists None, Demo.w0. reflexivity.
Defined.

(** C9 as stated fails for the LLM: with an LLM that raises on every call,
    [health_check] issues no LLM call and reports the perplexity entry
    [true]. *)
Lemma llm_outage_is_not_probed :
  llm_down (Demo.service true true false) ∧
  List.filter is_llm_call
    (calls (health_check Demo.clock (Demo.service true true false) Demo.w0))
  = [] ∧
  ∃ h,
    outcome (health_check Demo.clock (Demo.service true true false) Demo.w0)
    = Return h ∧
    perplexity_llm h = true.
Proof.
  split; [apply demo_llm_down|]. split; [reflexivity|].
  eexists. split; [vm_compute; reflexivity | reflexivity].
Qed.

(** C10 on an unknown chat. *)
Lemma failed_validation_writes_only_the_apology_witness :
  calls (process_chat_prompt Demo.clock (Demo.service true true true)
           "c2" "hello" (Some "u1") Demo.w0)
  = [Get_chat "c2"; Add_assistant_response_to_chat "c2" error_response []].
Proof.
  apply (failed_validation_writes_only_the_apology Demo.clock
           (Demo.service true true true) "c2" "hello" (Some "u1") Demo.w0
           None Demo.w0 eq_refl).
  left. reflexivity.
Defined.

(** C7: the configured [max_rag_results] never reaches the retrieval: the
    request is the same under any other limit, the vector store is queried
    with the chat id and the prompt only, and with six indexed documents a
    service configured with K = 5 uses six context items. *)
Theorem max_rag_results_is_not_applied :
  (∀ W (utcnow : W → string) (self : ChatbotService W) k cid p uid w,
     process_chat_prompt utcnow (with_max_rag_results k self) cid p uid w
     = process_chat_prompt utcnow self cid p uid w) ∧
  max_rag_results (Demo.service true true true) = 5%Z ∧
  List.filter is_retrieval
    (calls (process_chat_prompt Demo.clock (Demo.service true true true)
              "c1" "hello" None Demo.w0))
  = [Query_chat_docs "c1" "hello"] ∧
  ∃ r,
    outcome (process_chat_prompt Demo.clock (Demo.service true true true)
               "c1" "hello" None Demo.w0) = Return r ∧
    contextUsed r = 6%nat.
Proof.
  split; [reflexivity|]. split; [reflexivity|]. split; [reflexivity|].
  eexists. split; [vm_compute; reflexivity | reflexivity].
Qed.

(** * Further properties of the service *)

Section FurtherProperties.

Context {W : Type} (utcnow : W → string).

Implicit Types (self : ChatbotService W) (w : W).

(** ** [get_chat_summary] *)

Lemma get_chat_summary_run self cid w :
  ∃ s, get_chat_summary self cid w
       = Run (Return s) (get_chat (chat_utils self) cid w).2 [Get_chat cid].
Proof.
  unfold get_chat_summary. exec; cbn; eexists; reflexivity.
Qed.

(** X1: [get_chat_summary] never raises and only reads: its one call is
    [get_chat chat_id]; when that call raises, or finds no session ([None]
    or an empty document), the summary is the empty dict. *)
Theorem get_chat_summary_is_best_effort self cid w :
  (∃ s, outcome (get_chat_summary self cid w) = Return s) ∧
  calls (get_chat_summary self cid w) = [Get_chat cid] ∧
  (∀ e w1,
     get_chat (chat_utils self) cid w = (Raise e, w1) →
     outcome (get_chat_summary self cid w) = Return ∅) ∧
  (∀ chat w1,
     get_chat (chat_utils self) cid w = (Return chat, w1) →
     chat_found chat = false →
     outcome (get_chat_summary self cid w) = Return ∅).
Proof.
  split; [|split; [|split]].
  - destruct (get_chat_summary_run self cid w) as [s ->]. eauto.
  - destruct (get_chat_summary_run self cid w) as [s ->]. reflexivity.
  - intros e w1 E. unfold get_chat_summary. unfold_monad. rewrite E.
    reflexivity.
  - intros chat w1 E Hc. unfold get_chat_summary. unfold_monad. rewrite E.
    destruct chat as [d|]; cbn -[truthy] in *; [rewrite Hc|]; reflexivity.
Qed.

(** X2: for a session whose ["conversationHistory"] is a list (or is
    missing, which counts as the empty list), the summary carries the chat
    id, the session's [userId], [createdAt] and [updatedAt] ([None] when
    missing), its title or ["Untitled Chat"], the number of messages and the
    last message ([None] when there is none). *)
Theorem get_chat_summary_of_session self cid w d w1 msgs :
  get_chat (chat_utils self) cid w = (Return (Some d), w1) →
  d ≠ ∅ →
  get_or d "conversationHistory" (VList []) = VList msgs →
  ∃ s,
    outcome (get_chat_summary self cid w) = Return s ∧
    s !! "chatId" = Some (VStr cid) ∧
    s !! "userId" = Some (default VNone (d !! "userId")) ∧
    s !! "title" = Some (default (VStr "Untitled Chat") (d !! "title")) ∧
    s !! "messageCount" = Some (VInt (Z.of_nat (length msgs))) ∧
    s !! "createdAt" = Some (default VNone (d !! "createdAt")) ∧
    s !! "updatedAt" = Some (default VNone (d !! "updatedAt")) ∧
    s !! "lastMessage" = Some (default VNone (last msgs)) ∧
    size s = 7%nat.
Proof.
  intros E Hd Hh. apply truthy_dict in Hd.
  unfold get_chat_summary. unfold_monad. rewrite E. cbn beta iota.
  rewrite Hd, Hh. cbn beta iota delta [negb len].
  destruct msgs as [|m msgs]; cbn -[last].
  - eexists. repeat split; reflexivity.
  - destruct (last (m :: msgs)) as [x|] eqn:El.
    + cbn. eexists. repeat split; reflexivity.
    + apply last_None in El. discriminate.
Qed.

(** X3: a session whose ["conversationHistory"] has no length ([None], a
    number, a boolean) or is a non-empty dict gets the empty summary: the
    [TypeError] of [len] or the [KeyError] of [[-1]] is swallowed. *)
Theorem get_chat_summary_of_odd_history self cid w d w1 v :
  get_chat (chat_utils self) cid w = (Return (Some d), w1) →
  d !! "conversationHistory" = Some v →
  v = VNone ∨ (∃ n, v = VInt n) ∨ (∃ b, v = VBool b) ∨
    (∃ m, v = VDict m ∧ m ≠ ∅) →
  outcome (get_chat_summary self cid w) = Return ∅.
Proof.
  intros E Hh Hv. unfold get_chat_summary. unfold_monad. rewrite E.
  cbn beta iota. destruct (negb (truthy (VDict d))); [reflexivity|].
  unfold get_or. rewrite Hh. cbn beta iota delta [default].
  destruct Hv as [-> | [[n ->] | [[b ->] | (m & -> & Hm)]]]; try reflexivity.
  apply truthy_dict in Hm. cbn -[truthy]. rewrite Hm. reflexivity.
Qed.

(** ** [_retrieve_relevant_context] *)

(** X5: [_retrieve_relevant_context] hands a successful query result on
    unchanged when it has no ["documents"] entry or when that entry is a
    list starting with a list; but a result whose ["documents"] is the empty
    list, or [None], is dropped and replaced by the empty dict, because the
    logged [len(results.get('documents', [[]])[0])] raises inside the
    [try]. *)
Theorem retrieve_keeps_or_drops_results self cid q w results w1 :
  query_chat_docs (chroma_utils self) cid q w = (Return results, w1) →
  (results !! "documents" = None →
     _retrieve_relevant_context self cid q w
     = Run (Return results) w1 [Query_chat_docs cid q]) ∧
  (∀ docs rest,
     results !! "documents" = Some (VList (VList docs :: rest)) →
     _retrieve_relevant_context self cid q w
     = Run (Return results) w1 [Query_chat_docs cid q]) ∧
  (results !! "documents" = Some (VList []) ∨
   results !! "documents" = Some VNone →
     _retrieve_relevant_context self cid q w
     = Run (Return ∅) w1 [Query_chat_docs cid q]).
Proof.
  intros E. unfold _retrieve_relevant_context, get_or. unfold_monad.
  rewrite E. cbn beta iota.
  split; [|split].
  - intros ->. reflexivity.
  - intros docs rest ->. reflexivity.
  - intros [-> | ->]; reflexivity.
Qed.

(** ** [_generate_llm_response] *)

(** X6: a payload without a ["prompt"] entry never reaches the LLM:
    [_generate_llm_response] returns the fallback string without any call
    and leaves the world as it is (the [KeyError] is swallowed); the same
    holds when [self.llm] is not set. *)
Theorem generate_without_prompt_is_fallback self payload w :
  payload !! "prompt" = None ∨ llm self = None →
  _generate_llm_response self payload w = Run (Return fallback_response) w [].
Proof.
  intros H. unfold _generate_llm_response, getitem. unfold_monad.
  destruct H as [-> | ->].
  - destruct (truthy (get payload "context") || truthy (get payload "history"));
      destruct (llm self); reflexivity.
  - destruct (truthy (get payload "context") || truthy (get payload "history"));
      reflexivity.
Qed.

(** ** [process_chat_prompt] on every path *)

(** X7: [process_chat_prompt] retries nothing: on every path, returning or
    raising, it queries the vector store at most once, calls the LLM at most
    once and appends the prompt at most once. *)
Theorem process_chat_prompt_never_retries self cid p uid w :
  (length (List.filter is_retrieval
             (calls (process_chat_prompt utcnow self cid p uid w))) ≤ 1)%nat ∧
  (length (List.filter is_llm_call
             (calls (process_chat_prompt utcnow self cid p uid w))) ≤ 1)%nat ∧
  (length (List.filter is_user_append
             (calls (process_chat_prompt utcnow self cid p uid w))) ≤ 1)%nat.
Proof.
  rewrite process_chat_prompt_unfold. unfold process_chat_prompt_body.
  exec; cbn.
  all: resolve_helpers (@retrieve_run W) (@generate_llm_response_calls W).
  all: cbn; try (split; [|split]; lia).
  all: match goal with
       | H : is_llm_call ?e = true |- _ => destruct e; try discriminate
       end.
  all: cbn; split; [|split]; lia.
Qed.

(** X8: every path of [process_chat_prompt] ends with an assistant append:
    the response when it returns, the apology when it raises.  It attempts
    one or two of them, and two only when it raises after the response
    append was attempted: the response append followed by the apology. *)
Theorem process_chat_prompt_ends_with_an_assistant_append self cid p uid w :
  (∀ r, outcome (process_chat_prompt utcnow self cid p uid w) = Return r →
        last (calls (process_chat_prompt utcnow self cid p uid w))
        = Some (Add_assistant_response_to_chat cid (response r) (citations r))) ∧
  (∀ e, outcome (process_chat_prompt utcnow self cid p uid w) = Raise e →
        last (calls (process_chat_prompt utcnow self cid p uid w))
        = Some (Add_assistant_response_to_chat cid error_response [])) ∧
  (List.filter is_assistant_append
     (calls (process_chat_prompt utcnow self cid p uid w))
   = [Add_assistant_response_to_chat cid error_response []] ∨
   (∃ r, outcome (process_chat_prompt utcnow self cid p uid w) = Return r ∧
         List.filter is_assistant_append
           (calls (process_chat_prompt utcnow self cid p uid w))
         = [Add_assistant_response_to_chat cid (response r) (citations r)]) ∨
   (∃ e resp cs,
      outcome (process_chat_prompt utcnow self cid p uid w) = Raise e ∧
      List.filter is_assistant_append
        (calls (process_chat_prompt utcnow self cid p uid w))
      = [Add_assistant_response_to_chat cid resp cs;
         Add_assistant_response_to_chat cid error_response []])).
Proof.
  rewrite process_chat_prompt_unfold. unfold process_chat_prompt_body.
  exec; cbn.
  all: resolve_helpers (@retrieve_run W) (@generate_llm_response_calls W).
  all: cbn.
  all: try match goal with
       | H : is_llm_call ?e = true |- _ => destruct e; try discriminate
       end.
  all: cbn; (split; [|split]);
    [ try (intros ? [=]; subst; reflexivity); try discriminate
    | try (intros ? [=]; subst; reflexivity); try discriminate
    | ].
  all: first [ left; reflexivity
             | right; left; eexists; split; reflexivity
             | right; right; eexists _, _, _; split; reflexivity ].
Qed.

(** X9: if the session is gone when it is re-loaded for the history
    ([get_chat] returns [None] after validation passed and the prompt was
    appended), [process_chat_prompt] raises [AttributeError]: the history
    is not formatted, the LLM is not called, and the apology append is
    attempted on the session that is gone. *)
Theorem process_chat_prompt_session_gone_at_reload
    self cid p uid w d w1 w2 rag ctx w4 w5 :
  get_chat (chat_utils self) cid w = (Return (Some d), w1) →
  truthy (VDict d) = true →
  owner_mismatch d uid = false →
  add_prompt_to_chat (chat_utils self) cid p w1 = (Return (), w2) →
  outcome (_retrieve_relevant_context self cid p w2) = Return rag →
  format_rag_context (context_formatter self) rag
    (world (_retrieve_relevant_context self cid p w2)) = (Return ctx, w4) →
  get_chat (chat_utils self) cid w4 = (Return None, w5) →
  process_chat_prompt utcnow self cid p uid w
  = Run (Raise (AttributeError "'NoneType' object has no attribute 'get'"))
        (add_assistant_response_to_chat (chat_utils self)
           cid error_response [] w5).2
        [Get_chat cid; Add_prompt_to_chat cid p; Query_chat_docs cid p;
         Format_rag_context rag; Get_chat cid;
         Add_assistant_response_to_chat cid error_response []].
Proof.
  intros E Hd Hm Eadd Hrag Efmt Ereload.
  destruct (retrieve_run self cid p w2) as (rag' & Hrun & _).
  rewrite Hrun in Hrag, Efmt. cbn in Hrag, Efmt. injection Hrag as ->.
  rewrite process_chat_prompt_unfold.
  unfold process_chat_prompt_body. unfold_monad.
  rewrite E. cbn beta iota. rewrite Hd.
  assert (match uid with
          | Some u => truthy (VStr u) && ne_str (get d "userId") u
          | None => false
          end = false) as Hm' by exact Hm.
  destruct uid as [u|]; [rewrite Hm'|];
    cbn beta iota; rewrite Eadd; cbn beta iota; rewrite Hrun; cbn beta iota;
    rewrite Efmt; cbn beta iota; rewrite Ereload; reflexivity.
Qed.

(** The session re-loaded at step 4 comes from a world the collaborators
    left in [inv]. *)
Lemma pipeline_reload inv self cid p w1 r wf evs :
  healthy inv self cid → inv w1 →
  pipeline utcnow self cid p w1 r wf evs →
  ∃ w4 d' w5,
    inv w4 ∧
    get_chat (chat_utils self) cid w4 = (Return (Some d'), w5) ∧
    Format_chat_history (get_or d' "conversation_history" (VList []))
      (max_chat_history self) ∈ evs.
Proof.
  intros ((Hadd & _ & _) & (Hrag & _) & Hup) I1 Hp.
  inversion Hp as [w2 w3 w4 w5 ? ? ? ? ? ? rag ctx d' ? ? ? ? ? ? ?
                    E2 E3 E4 E5 _ _ _ _ _ _]; subst.
  destruct (Hadd p w1 I1) as (? & w2' & E2' & I2).
  assert (w2' = w2) as -> by congruence.
  pose proof (retrieve_keeps inv self cid p w2 Hup I2) as I3.
  rewrite E3 in I3. cbn in I3.
  destruct (Hrag rag w3 I3) as (? & w4' & E4' & I4).
  assert (w4' = w4) as -> by congruence.
  exists w4, d', w5. split; [exact I4|]. split; [exact E5|].
  cbn. repeat first [apply list_elem_of_here | apply list_elem_of_further].
Qed.

(** X4: [process_chat_prompt] reads the history of the re-loaded session
    under ["conversation_history"], [get_chat_summary] under
    ["conversationHistory"].  With a working store whose session documents
    carry no ["conversation_history"] entry, every request that returns has
    formatted the empty history, while the summary of a session that keeps
    [msgs] under ["conversationHistory"] counts them. *)
Theorem history_is_read_under_another_key_than_the_summary
    inv self cid p uid w :
  healthy inv self cid → inv w →
  (∀ w' d' w'',
     inv w' →
     get_chat (chat_utils self) cid w' = (Return (Some d'), w'') →
     d' !! "conversation_history" = None) →
  (∀ r, outcome (process_chat_prompt utcnow self cid p uid w) = Return r →
        Format_chat_history (VList []) (max_chat_history self)
        ∈ calls (process_chat_prompt utcnow self cid p uid w)) ∧
  (∀ d w1 msgs,
     get_chat (chat_utils self) cid w = (Return (Some d), w1) →
     truthy (VDict d) = true →
     d !! "conversationHistory" = Some (VList msgs) →
     ∃ s, outcome (get_chat_summary self cid w) = Return s ∧
          s !! "messageCount" = Some (VInt (Z.of_nat (length msgs)))).
Proof.
  intros Hh Hw Hkey. split.
  - intros r Hr.
    destruct (process_chat_prompt utcnow self cid p uid w) as [o wf evs] eqn:E.
    cbn in Hr. subst o.
    destruct (process_returns_inv utcnow _ _ _ _ _ _ _ _ E)
      as (d & w1 & evs' & E1 & _ & _ & Hp & ->).
    assert (inv w1) as I1.
    { destruct Hh as ((_ & _ & Hget) & _).
      destruct (Hget w Hw) as (? & ? & E1' & ?). congruence. }
    destruct (pipeline_reload inv self cid p w1 r wf evs' Hh I1 Hp)
      as (w4 & d' & w5 & I4 & E5 & Hin).
    unfold get_or in Hin. rewrite (Hkey w4 d' w5 I4 E5) in Hin.
    cbn. apply list_elem_of_further. exact Hin.
  - intros d w1 msgs E Hd Hsum.
    apply (summary_reads_another_history_key self cid w d w1 msgs E Hd Hsum).
    eapply Hkey; eassumption.
Qed.

(** X13: a session document without a ["userId"] entry rejects every
    non-empty user id with the owner-mismatch [ValueError] ([None] differs
    from any string), and only lets through calls without a user id (or
    with the empty one). *)
Theorem session_without_owner_rejects_every_user_id self cid p w d w1 :
  get_chat (chat_utils self) cid w = (Return (Some d), w1) →
  d ≠ ∅ →
  d !! "userId" = None →
  (∀ u, u ≠ "" →
        outcome (process_chat_prompt utcnow self cid p (Some u) w)
        = Raise (ValueError "User ID does not match chat owner")) ∧
  (∀ uid r,
     outcome (process_chat_prompt utcnow self cid p uid w) = Return r →
     uid = None ∨ uid = Some "").
Proof.
  intros E Hd Hu. apply truthy_dict in Hd.
  assert (∀ u, u ≠ "" → owner_mismatch d (Some u) = true) as Hmm.
  { intros u Hne. apply owner_mismatch_true. exists u.
    split; [reflexivity|]. split; [exact Hne|].
    unfold get. rewrite Hu. discriminate. }
  split.
  - intros u Hne. rewrite process_chat_prompt_unfold.
    rewrite (owner_mismatch_body utcnow self cid p (Some u) w d w1 E Hd (Hmm u Hne)).
    reflexivity.
  - intros [u|] r Hr; [|auto]. right.
    destruct (decide (u = "")) as [->|Hne]; [reflexivity|].
    rewrite process_chat_prompt_unfold in Hr.
    rewrite (owner_mismatch_body utcnow self cid p (Some u) w d w1 E Hd (Hmm u Hne))
      in Hr.
    discriminate.
Qed.

(** ** [health_check] *)

(** X12: [health_check] never calls the LLM: for a service built by the
    constructor the perplexity entry is [true] whatever the LLM would
    answer, and the report is stamped with the clock read before the
    probes. *)
Theorem health_check_does_not_probe_the_llm
    (chroma : ChromaUtils W) (chat : ChatUtils W)
    (fmt : LLMContextFormatter W) (l : PerplexityLLM W) w :
  ∃ h,
    outcome (health_check utcnow (__init__ chroma chat fmt l) w) = Return h ∧
    perplexity_llm h = true ∧
    health_timestamp h = utcnow w ∧
    List.filter is_llm_call
      (calls (health_check utcnow (__init__ chroma chat fmt l) w)) = [].
Proof.
  rewrite health_check_run. cbn. eexists. repeat split; reflexivity.
Qed.

(** ** Construction and the process-wide instance *)

(** X10: [ChatbotService()] runs the collaborator constructors in the order
    ChromaUtils, ChatUtils, UserUtils, LLMContextFormatter, PerplexityLLM.
    Whichever of the five is the first to fail, the construction raises its
    exception in the world it left and runs none of the later ones; when all
    five return, the construction returns the service made of their results,
    configured with [max_rag_results = 5], [max_chat_history = 10],
    [max_tokens = 8000] and an LLM client. *)
Theorem construction_stops_at_the_first_failure (cs : Constructors W) w :
  (∀ self,
     built (ChatbotService_new cs w) = Return self →
     constructed (ChatbotService_new cs w) = all_constructors ∧
     max_rag_results self = 5%Z ∧ max_chat_history self = 10%Z ∧
     max_tokens self = 8000%Z ∧ is_not_None (llm self) = true) ∧
  (∀ e,
     built (ChatbotService_new cs w) = Raise e →
     constructed (ChatbotService_new cs w) ≠ [] ∧
     constructed (ChatbotService_new cs w) `prefix_of` all_constructors) ∧
  (∀ e w1,
     ChromaUtils_new cs w = (Raise e, w1) →
     ChatbotService_new cs w = Construction (Raise e) w1 [New_ChromaUtils]) ∧
  (∀ chroma w1 e w2,
     ChromaUtils_new cs w = (Return chroma, w1) →
     ChatUtils_new cs w1 = (Raise e, w2) →
     ChatbotService_new cs w
     = Construction (Raise e) w2 [New_ChromaUtils; New_ChatUtils]) ∧
  (∀ chroma w1 chat w2 e w3,
     ChromaUtils_new cs w = (Return chroma, w1) →
     ChatUtils_new cs w1 = (Return chat, w2) →
     UserUtils_new cs w2 = (Raise e, w3) →
     ChatbotService_new cs w
     = Construction (Raise e) w3
         [New_ChromaUtils; New_ChatUtils; New_UserUtils]) ∧
  (∀ chroma w1 chat w2 w3 e w4,
     ChromaUtils_new cs w = (Return chroma, w1) →
     ChatUtils_new cs w1 = (Return chat, w2) →
     UserUtils_new cs w2 = (Return (), w3) →
     LLMContextFormatter_new cs w3 = (Raise e, w4) →
     ChatbotService_new cs w
     = Construction (Raise e) w4
         [New_ChromaUtils; New_ChatUtils; New_UserUtils;
          New_LLMContextFormatter]) ∧
  (∀ chroma w1 chat w2 w3 fmt w4 e w5,
     ChromaUtils_new cs w = (Return chroma, w1) →
     ChatUtils_new cs w1 = (Return chat, w2) →
     UserUtils_new cs w2 = (Return (), w3) →
     LLMContextFormatter_new cs w3 = (Return fmt, w4) →
     PerplexityLLM_new cs w4 = (Raise e, w5) →
     ChatbotService_new cs w = Construction (Raise e) w5 all_constructors) ∧
  (∀ chroma w1 chat w2 w3 fmt w4 l w5,
     ChromaUtils_new cs w = (Return chroma, w1) →
     ChatUtils_new cs w1 = (Return chat, w2) →
     UserUtils_new cs w2 = (Return (), w3) →
     LLMContextFormatter_new cs w3 = (Return fmt, w4) →
     PerplexityLLM_new cs w4 = (Return l, w5) →
     ChatbotService_new cs w
     = Construction (Return (__init__ chroma chat fmt l)) w5 all_constructors).
Proof.
  unfold ChatbotService_new, construct, all_constructors.
  split; [|split; [|split; [|split; [|split; [|split; [|split]]]]]].
  - intros self.
    destruct (ChromaUtils_new cs w) as [[a1|e1] w1]; [|discriminate].
    destruct (ChatUtils_new cs w1) as [[a2|e2] w2]; [|discriminate].
    destruct (UserUtils_new cs w2) as [[a3|e3] w3]; [|discriminate].
    destruct (LLMContextFormatter_new cs w3) as [[a4|e4] w4]; [|discriminate].
    destruct (PerplexityLLM_new cs w4) as [[a5|e5] w5]; [|discriminate].
    cbn. intros [= <-]. repeat split; reflexivity.
  - intros e.
    destruct (ChromaUtils_new cs w) as [[a1|e1] w1]; cbn;
      [|intros _; split; [discriminate | by eexists]].
    destruct (ChatUtils_new cs w1) as [[a2|e2] w2]; cbn;
      [|intros _; split; [discriminate | by eexists]].
    destruct (UserUtils_new cs w2) as [[a3|e3] w3]; cbn;
      [|intros _; split; [discriminate | by eexists]].
    destruct (LLMContextFormatter_new cs w3) as [[a4|e4] w4]; cbn;
      [|intros _; split; [discriminate | by eexists]].
    destruct (PerplexityLLM_new cs w4) as [[a5|e5] w5]; cbn;
      [discriminate | intros _; split; [discriminate | by eexists]].
  - intros e w1 ->. reflexivity.
  - intros chroma w1 e w2 -> ->. reflexivity.
  - intros chroma w1 chat w2 e w3 -> -> ->. reflexivity.
  - intros chroma w1 chat w2 w3 e w4 -> -> -> ->. reflexivity.
  - intros chroma w1 chat w2 w3 fmt w4 e w5 -> -> -> -> ->. reflexivity.
  - intros chroma w1 chat w2 w3 fmt w4 l w5 -> -> -> -> ->. reflexivity.
Qed.

(** X11: [get_chatbot_service] constructs the service once: after a first
    call that returned, every later call returns that same instance, runs no
    constructor and leaves the world as it is; after a first call that
    raised, the global is still unset and the next call constructs again. *)
Theorem get_chatbot_service_constructs_once (cs : Constructors W) w :
  match built (get_chatbot_service cs None w).1 with
  | Return self =>
      (get_chatbot_service cs None w).2 = Some self ∧
      ∀ w2, get_chatbot_service cs (get_chatbot_service cs None w).2 w2
            = (Construction (Return self) w2 [], Some self)
  | Raise e =>
      (get_chatbot_service cs None w).2 = None ∧
      built (ChatbotService_new cs w) = Raise e ∧
      ∀ w2, (get_chatbot_service cs (get_chatbot_service cs None w).2 w2).1
            = ChatbotService_new cs w2
  end.
Proof.
  unfold get_chatbot_service.
  destruct (ChatbotService_new cs w) as [[self|e] w' t]; cbn.
  - split; [reflexivity|]. intros w2. reflexivity.
  - split; [reflexivity|]. split; [reflexivity|]. intros w2.
    destruct (ChatbotService_new cs w2) as [[self|e'] w'' t']; reflexivity.
Qed.

End FurtherProperties.

(** ** The further properties at concrete requests *)

(** X1 with the chat store down, and on an unknown chat. *)
Lemma get_chat_summary_is_best_effort_witness :
  outcome (get_chat_summary (Demo.service false true true) "c1" Demo.w0)
  = Return ∅ ∧
  outcome (get_chat_summary (Demo.service true true true) "c9" Demo.w0)
  = Return ∅.
Proof.
  split.
  - destruct (get_chat_summary_is_best_effort (Demo.service false true true)
                "c1" Demo.w0) as (_ & _ & Hraise & _).
    apply (Hraise (Demo.unavailable "mongodb") Demo.w0). reflexivity.
  - destruct (get_chat_summary_is_best_effort (Demo.service true true true)
                "c9" Demo.w0) as (_ & _ & _ & Hnone).
    apply (Hnone None Demo.w0); reflexivity.
Defined.

Lemma camel_session_not_empty : Scenarios.camel_session ≠ ∅.
Proof. apply truthy_dict. reflexivity. Qed.

(** X2 on a session with a title and two messages. *)
Lemma get_chat_summary_of_session_witness :
  ∃ s,
    outcome (get_chat_summary Scenarios.camel_service "c1" Scenarios.w_camel)
    = Return s ∧
    s !! "title" = Some (VStr "Leases") ∧
    s !! "messageCount" = Some (VInt 2) ∧
    s !! "lastMessage" = Some (Demo.message "assistant" "hello" []) ∧
    s !! "createdAt" = Some VNone.
Proof.
  destruct (get_chat_summary_of_session Scenarios.camel_service "c1"
              Scenarios.w_camel Scenarios.camel_session Scenarios.w_camel
              [Demo.message "user" "hi" []; Demo.message "assistant" "hello" []]
              eq_refl camel_session_not_empty eq_refl)
    as (s & Hs & _ & _ & Ht & Hc & Hcreated & _ & Hl & _).
  exists s. repeat split; assumption.
Defined.

(** X3 on a session whose history is null. *)
Lemma get_chat_summary_of_odd_history_witness :
  outcome (get_chat_summary (Demo.service true true true) "c1" Scenarios.w_odd)
  = Return ∅.
Proof.
  apply (get_chat_summary_of_odd_history (Demo.service true true true) "c1"
           Scenarios.w_odd Scenarios.null_history_session Scenarios.w_odd VNone
           eq_refl eq_refl).
  left. reflexivity.
Defined.

Lemma camel_append_keeps_key_absent (msg : value) (d : dict) :
  d !! "conversation_history" = None →
  Scenarios.append_message_camel msg d !! "conversation_history" = None.
Proof.
  intros Hd. unfold Scenarios.append_message_camel.
  destruct (get_or d "conversationHistory" (VList [])); try exact Hd.
  rewrite lookup_insert_ne by done. exact Hd.
Qed.

Lemma camel_alter_keeps_inv (msg : value) (cid : string) (w : Demo.world) :
  Scenarios.camel_inv w →
  Scenarios.camel_inv
    (Demo.with_sessions
       (alter (Scenarios.append_message_camel msg) cid (Demo.sessions w)) w).
Proof.
  intros [Hc1 Hkey]. split.
  - by apply demo_alter_keeps_c1.
  - intros cid' d. cbn. destruct (decide (cid = cid')) as [->|Hne].
    + rewrite lookup_alter_eq.
      destruct (Demo.sessions w !! cid') as [d0|] eqn:E; [|discriminate].
      cbn. intros [= <-]. apply camel_append_keeps_key_absent. eauto.
    + rewrite lookup_alter_ne by done. apply Hkey.
Qed.

Lemma camel_healthy :
  healthy Scenarios.camel_inv Scenarios.camel_service "c1".
Proof.
  split; [|split].
  - split; [|split].
    + intros p w Hw. eexists _, _. split; [reflexivity|].
      by apply camel_alter_keeps_inv.
    + intros r cs w Hw. eexists _, _. split; [reflexivity|].
      by apply camel_alter_keeps_inv.
    + intros w [[d Hd] Hkey]. exists d, w. cbn. rewrite Hd.
      split; [reflexivity|]. split; [by exists d | exact Hkey].
  - repeat split; intros; eexists _, _; (split; [reflexivity | assumption]).
  - split.
    + intros cid q w r w' Hw [= _ <-]. exact Hw.
    + intros l [= <-]. split; intros; intros w r w' Hw [= _ <-]; exact Hw.
Qed.

Lemma camel_inv_w_camel : Scenarios.camel_inv Scenarios.w_camel.
Proof.
  split; [by exists Scenarios.camel_session|].
  intros cid d. cbn. destruct (decide (cid = "c1")) as [->|Hne].
  - intros [= <-]. reflexivity.
  - rewrite lookup_singleton_ne by done. discriminate.
Qed.

(** X4 on a store that keeps the messages under ["conversationHistory"]:
    the summary counts two messages, the request formats none. *)
Lemma history_is_read_under_another_key_than_the_summary_witness :
  Format_chat_history (VList []) 10
  ∈ calls (process_chat_prompt Demo.clock Scenarios.camel_service
             "c1" "hello" None Scenarios.w_camel) ∧
  ∃ s, outcome (get_chat_summary Scenarios.camel_service "c1" Scenarios.w_camel)
       = Return s ∧
       s !! "messageCount" = Some (VInt 2).
Proof.
  destruct (history_is_read_under_another_key_than_the_summary Demo.clock
              Scenarios.camel_inv Scenarios.camel_service "c1" "hello" None
              Scenarios.w_camel camel_healthy camel_inv_w_camel)
    as [Hproc Hsum].
  { intros w' d' w'' [_ Hkey] [= E _]. eapply Hkey. exact E. }
  split.
  - destruct (healthy_returns Demo.clock Scenarios.camel_inv
                Scenarios.camel_service "c1" "hello" None Scenarios.w_camel
                Scenarios.camel_session Scenarios.w_camel
                camel_healthy camel_inv_w_camel eq_refl eq_refl eq_refl)
      as (r & wf & evs & Hr & _).
    apply (Hproc r). rewrite Hr. reflexivity.
  - apply (Hsum Scenarios.camel_session Scenarios.w_camel
             [Demo.message "user" "hi" []; Demo.message "assistant" "hello" []]
             eq_refl eq_refl eq_refl).
Defined.

(** X5: the six documents of the in-memory store are handed on; the answer
    with an empty ["documents"] list is dropped. *)
Lemma retrieve_keeps_or_drops_results_witness :
  outcome (_retrieve_relevant_context (Demo.service true true true)
             "c1" "hello" Demo.w0)
  = Return {[ "documents" :=
                VList [VList (VStr <$> ["d1"; "d2"; "d3"; "d4"; "d5"; "d6"])] ]} ∧
  outcome (_retrieve_relevant_context Scenarios.blank_service
             "c1" "hello" Demo.w0)
  = Return ∅.
Proof.
  split.
  - destruct (retrieve_keeps_or_drops_results (Demo.service true true true)
                "c1" "hello" Demo.w0 _ Demo.w0 eq_refl) as (_ & Hkeep & _).
    rewrite (Hkeep (VStr <$> ["d1"; "d2"; "d3"; "d4"; "d5"; "d6"]) [] eq_refl).
    reflexivity.
  - destruct (retrieve_keeps_or_drops_results Scenarios.blank_service
                "c1" "hello" Demo.w0 _ Demo.w0 eq_refl) as (_ & _ & Hdrop).
    rewrite Hdrop; [reflexivity|]. left. reflexivity.
Defined.

(** X6 on a payload that has a context but no prompt. *)
Lemma generate_without_prompt_is_fallback_witness :
  _generate_llm_response (Demo.service true true true)
    Scenarios.payload_without_prompt Demo.w0
  = Run (Return fallback_response) Demo.w0 [].
Proof.
  apply (generate_without_prompt_is_fallback (Demo.service true true true)
           Scenarios.payload_without_prompt Demo.w0).
  left. reflexivity.
Defined.

(** X8 on a store that refuses assistant messages: the request raises, and
    its last call is the apology append. *)
Lemma process_chat_prompt_ends_with_an_assistant_append_witness :
  last (calls (process_chat_prompt Demo.clock Scenarios.no_assistant_service
                 "c1" "hello" None Demo.w0))
  = Some (Add_assistant_response_to_chat "c1" error_response []).
Proof.
  destruct (process_chat_prompt_ends_with_an_assistant_append Demo.clock
              Scenarios.no_assistant_service "c1" "hello" None Demo.w0)
    as (_ & Hraise & _).
  apply (Hraise (Demo.unavailable "mongodb write")).
  vm_compute. reflexivity.
Defined.

(** X9 on a store that loses the session once the prompt is appended. *)
Lemma process_chat_prompt_session_gone_at_reload_witness :
  outcome (process_chat_prompt Demo.clock Scenarios.forgetful_service
             "c1" "hello" None Demo.w0)
  = Raise (AttributeError "'NoneType' object has no attribute 'get'") ∧
  List.filter is_store_write
    (calls (process_chat_prompt Demo.clock Scenarios.forgetful_service
              "c1" "hello" None Demo.w0))
  = [Add_prompt_to_chat "c1" "hello";
     Add_assistant_response_to_chat "c1" error_response []].
Proof.
  erewrite (process_chat_prompt_session_gone_at_reload Demo.clock
              Scenarios.forgetful_service "c1" "hello" None Demo.w0
              Demo.session1 Demo.w0);
    [split; reflexivity | reflexivity ..].
Defined.

(** X10 with the database unreachable: the chat store constructor raises,
    the three constructors after it are not run; with the database up the
    service is built from the five results. *)
Lemma construction_stops_at_the_first_failure_witness :
  ChatbotService_new (Scenarios.constructors false) Demo.w0
  = Construction (Raise (Demo.unavailable "mongodb")) Demo.w0
      [New_ChromaUtils; New_ChatUtils] ∧
  ChatbotService_new (Scenarios.constructors true) Demo.w0
  = Construction (Return (Demo.service true true true)) Demo.w0
      all_constructors.
Proof.
  split.
  - destruct (construction_stops_at_the_first_failure
                (Scenarios.constructors false) Demo.w0)
      as (_ & _ & _ & Hsecond & _).
    apply (Hsecond (Demo.chroma true) Demo.w0); reflexivity.
  - destruct (construction_stops_at_the_first_failure
                (Scenarios.constructors true) Demo.w0)
      as (_ & _ & _ & _ & _ & _ & _ & Hall).
    apply (Hall (Demo.chroma true) Demo.w0 (Demo.chat true) Demo.w0 Demo.w0
             Demo.formatter Demo.w0 (Demo.perplexity true) Demo.w0);
      reflexivity.
Defined.

Lemma anonymous_session_not_empty : Scenarios.anonymous_session ≠ ∅.
Proof. apply truthy_dict. reflexivity. Qed.

(** X13 on a session that records no owner. *)
Lemma session_without_owner_rejects_every_user_id_witness :
  outcome (process_chat_prompt Demo.clock (Demo.service true true true)
             "c2" "hello" (Some "u1") Scenarios.w_odd)
  = Raise (ValueError "User ID does not match chat owner").
Proof.
  destruct (session_without_owner_rejects_every_user_id Demo.clock
              (Demo.service true true true) "c2" "hello" Scenarios.w_odd
              Scenarios.anonymous_session Scenarios.w_odd
              eq_refl anonymous_session_not_empty eq_refl) as [Hreject _].
  apply (Hreject "u1"). discriminate.
Defined.

(** ** How the steps of a request compose *)

Section Composition.

Context {W : Type} (utcnow : W → string).

Implicit Types (self : ChatbotService W) (w : W).

(** Any LLM call of [_generate_llm_response] carries the prompt, context and
    history of the payload. *)
Lemma generate_llm_response_events self payload w ev :
  ev ∈ calls (_generate_llm_response self payload w) →
  ∃ prompt,
    payload !! "prompt" = Some prompt ∧
    ev = if has_nonempty payload "context" || has_nonempty payload "history"
         then Generate_with_context prompt
                (get_or payload "context" (VList []))
                (get_or payload "history" (VList []))
         else Generate prompt.
Proof.
  unfold _generate_llm_response, has_nonempty, the_llm, getitem.
  destruct (truthy (get payload "context") || truthy (get payload "history"));
    exec; cbn; rewrite ?elem_of_cons, ?elem_of_nil; intros Hin;
    try contradiction; destruct Hin as [-> | []]; eauto.
Qed.

(** X14: when the session load itself raises (the store is unreachable),
    [process_chat_prompt] raises that error, not "Chat not found"; it calls
    nothing but the failed load and the apology append. *)
Theorem process_chat_prompt_store_failure_at_load self cid p uid w e w1 :
  get_chat (chat_utils self) cid w = (Raise e, w1) →
  process_chat_prompt utcnow self cid p uid w
  = Run (Raise e)
        (add_assistant_response_to_chat (chat_utils self)
           cid error_response [] w1).2
        [Get_chat cid; Add_assistant_response_to_chat cid error_response []].
Proof.
  intros E. rewrite process_chat_prompt_unfold.
  unfold process_chat_prompt_body. unfold_monad. rewrite E. reflexivity.
Qed.

(** X15: the LLM only sees the payload the formatter prepared: in a request
    that returns, [prepare_llm_payload] was given the context and history
    whose sizes the response reports, together with the user's prompt, and
    every LLM call carries the prompt, context and history entries of the
    payload it returned, not the user's prompt as such. *)
Theorem llm_sees_the_prepared_payload self cid p uid w r :
  outcome (process_chat_prompt utcnow self cid p uid w) = Return r →
  ∃ c h payload w7 w8,
    prepare_llm_payload (context_formatter self) c h p w7
    = (Return payload, w8) ∧
    contextUsed r = length c ∧ historyUsed r = length h ∧
    ∀ ev,
      ev ∈ calls (process_chat_prompt utcnow self cid p uid w) →
      is_llm_call ev = true →
      ∃ prompt,
        payload !! "prompt" = Some prompt ∧
        ev = if has_nonempty payload "context" || has_nonempty payload "history"
             then Generate_with_context prompt
                    (get_or payload "context" (VList []))
                    (get_or payload "history" (VList []))
             else Generate prompt.
Proof.
  intros Hr.
  destruct (process_chat_prompt utcnow self cid p uid w) as [o wf evs] eqn:E.
  cbn in Hr. subst o.
  destruct (process_returns_inv utcnow _ _ _ _ _ _ _ _ E)
    as (d & w1 & evs' & _ & _ & _ & Hp & ->).
  inversion Hp as [? ? ? ? ? w7 w8 ? ? ? ? ? ? ? c h payload llm_calls ? ?
                    _ _ _ _ _ _ Eprep Egen _ _]; subst.
  exists c, h, payload, w7, w8. split; [exact Eprep|].
  split; [reflexivity|]. split; [reflexivity|].
  intros ev Hin Hev. cbn in Hin.
  apply (generate_llm_response_events self payload w8 ev).
  rewrite Egen. cbn.
  rewrite !elem_of_cons, elem_of_app, !elem_of_cons, elem_of_nil in Hin.
  destruct Hin as [-> | [-> | [-> | [-> | [-> | [-> | [-> | [-> | Hin]]]]]]]];
    try discriminate.
  destruct Hin as [Hin | [-> | [-> | []]]]; [exact Hin | discriminate..].
Qed.

(** X16: with the LLM down, the fallback text is treated as the answer:
    citations are extracted against it from the context in use, and they
    are stored and returned with it. *)
Theorem fallback_response_still_gets_citations self cid p uid w r :
  llm_down self →
  outcome (process_chat_prompt utcnow self cid p uid w) = Return r →
  response r = fallback_response ∧
  ∃ c w9 w10,
    extract_citations_from_context (context_formatter self)
      c fallback_response w9 = (Return (citations r), w10) ∧
    contextUsed r = length c ∧
    Extract_citations_from_context c fallback_response
    ∈ calls (process_chat_prompt utcnow self cid p uid w) ∧
    Add_assistant_response_to_chat cid fallback_response (citations r)
    ∈ calls (process_chat_prompt utcnow self cid p uid w).
Proof.
  intros Hdown Hr.
  destruct (process_chat_prompt utcnow self cid p uid w) as [o wf evs] eqn:E.
  cbn in Hr. subst o.
  destruct (process_returns_inv utcnow _ _ _ _ _ _ _ _ E)
    as (d & w1 & evs' & _ & _ & _ & Hp & ->).
  inversion Hp as [? ? ? ? ? ? w8 w9 w10 ? ? ? ? ? c h payload llm_calls resp cs
                    _ _ _ _ _ _ _ Egen Ecit _]; subst.
  pose proof (generate_llm_response_fallback self payload w8 Hdown) as Hf.
  rewrite Egen in Hf. cbn in Hf. injection Hf as ->.
  cbn. split; [reflexivity|].
  exists c, w9, w10. split; [exact Ecit|]. split; [reflexivity|].
  rewrite !elem_of_cons, !elem_of_app, !elem_of_cons. split.
  - do 8 right. right. left. reflexivity.
  - do 8 right. right. right. left. reflexivity.
Qed.

End Composition.

(** X14 with the chat store down. *)
Lemma process_chat_prompt_store_failure_at_load_witness :
  outcome (process_chat_prompt Demo.clock (Demo.service false true true)
             "c1" "hello" (Some "u1") Demo.w0)
  = Raise (Demo.unavailable "mongodb").
Proof.
  rewrite (process_chat_prompt_store_failure_at_load Demo.clock
             (Demo.service false true true) "c1" "hello" (Some "u1") Demo.w0
             (Demo.unavailable "mongodb") Demo.w0 eq_refl).
  reflexivity.
Defined.

(** X15 on the healthy deployment: the one LLM call is context-aware and
    carries the six documents and the prompt of the payload. *)
Lemma llm_sees_the_prepared_payload_witness :
  ∃ payload,
    payload !! "prompt" = Some (VStr "hello") ∧
    ∀ ev,
      ev ∈ calls (process_chat_prompt Demo.clock (Demo.service true true true)
                    "c1" "hello" None Demo.w0) →
      is_llm_call ev = true →
      ∃ prompt,
        payload !! "prompt" = Some prompt ∧
        ev = if has_nonempty payload "context" || has_nonempty payload "history"
             then Generate_with_context prompt
                    (get_or payload "context" (VList []))
                    (get_or payload "history" (VList []))
             else Generate prompt.
Proof.
  destruct (healthy_returns Demo.clock Demo.has_c1 (Demo.service true true true)
              "c1" "hello" None Demo.w0 Demo.session1 Demo.w0
              (demo_healthy true true) demo_w0_has_c1 eq_refl eq_refl eq_refl)
    as (r & wf & evs & Hr & _).
  destruct (llm_sees_the_prepared_payload Demo.clock
              (Demo.service true true true) "c1" "hello" None Demo.w0 r)
    as (c & h & payload & w7 & w8 & Eprep & _ & _ & Hev).
  { rewrite Hr. reflexivity. }
  exists payload. split; [|exact Hev].
  injection Eprep as <- _. reflexivity.
Defined.

(** X16 with the LLM down and the vector store up: the fallback answer
    comes back with the six documents as citations. *)
Lemma fallback_response_still_gets_citations_witness :
  ∃ r,
    outcome (process_chat_prompt Demo.clock (Demo.service true true false)
               "c1" "hello" None Demo.w0) = Return r ∧
    response r = fallback_response ∧
    Add_assistant_response_to_chat "c1" fallback_response (citations r)
    ∈ calls (process_chat_prompt Demo.clock (Demo.service true true false)
               "c1" "hello" None Demo.w0).
Proof.
  destruct (healthy_returns Demo.clock Demo.has_c1 (Demo.service true true false)
              "c1" "hello" None Demo.w0 Demo.session1 Demo.w0
              (demo_healthy true false) demo_w0_has_c1 eq_refl eq_refl eq_refl)
    as (r & wf & evs & Hr & _).
  assert (outcome (process_chat_prompt Demo.clock (Demo.service true true false)
                     "c1" "hello" None Demo.w0) = Return r) as Hout.
  { rewrite Hr. reflexivity. }
  destruct (fallback_response_still_gets_citations Demo.clock
              (Demo.service true true false) "c1" "hello" None Demo.w0 r
              (demo_llm_down true true) Hout)
    as (Hresp & c & w9 & w10 & _ & _ & _ & Hin).
  exists r. split; [exact Hout|]. split; [exact Hresp | exact Hin].
Defined.
